(** * Pulse (headers-client): configuration defaults, database bootstrap
      and the database/domain conversions of block headers and Merkle-root
      confirmations.

    The development embeds three Go files:
    - package [config]: [GetDefaultAppConfig] and the defaults it collects;
    - package [database]: [Init], [Connect], [DoMigrations], [NewDBAdapter];
    - package [dto]: [ToBlockHeader], [ConvertToBlockHeader],
      [ToDbBlockHeader], [ToMerkleRootConfirmation],
      [ConvertToMerkleRootsConfirmations].

    Go values are modelled as follows.  Fixed-width integers are [Z] with the
    two's-complement wrap-around written out ([GoInt]); strings are byte
    strings ([string]); a pointer that the code under study produces or tests
    is an [option] ([None] is nil); a slice is [nil_slice] or a list; structs
    are records, one module per struct so that the Go field names are kept;
    a panic is an explicit outcome; the row pointers that [ToBlockHeader]
    writes through are addresses into a store. *)

From Stdlib Require Import ZArith String Ascii List Bool Lia.
From Stdlib Require Import DecimalString DecimalZ.
From stdpp Require Import base option list gmap.

Import ListNotations.
Local Open Scope Z_scope.
Local Open Scope string_scope.

(* ===================================================================== *)
(** ** Go machine integers *)
(* ===================================================================== *)

Module GoInt.

(** Two's-complement reduction of a mathematical integer to [w] bits: the
    value a Go conversion or an overflowing operation leaves in a signed
    [w]-bit variable. *)
Definition wrap (w : Z) (x : Z) : Z :=
  (x + 2 ^ (w - 1)) mod 2 ^ w - 2 ^ (w - 1).

Definition in_range (w : Z) (x : Z) : Prop :=
  - 2 ^ (w - 1) <= x < 2 ^ (w - 1).

(** Width of Go's [int] on the 64-bit targets the service is built for.
    [int32_of_int_width] below shows that the 32-bit width gives the same
    results wherever [int] is used in this development. *)
Definition intSize : Z := 64.

Definition is_int32 (x : Z) : Prop := in_range 32 x.
Definition is_int (x : Z) : Prop := in_range intSize x.

(** [int32(x)] conversion, [a - b] on int32 and [a + b] on int. *)
Definition to_int32 (x : Z) : Z := wrap 32 x.
Definition int32_sub (a b : Z) : Z := wrap 32 (a - b).
Definition int_add (a b : Z) : Z := wrap intSize (a + b).

End GoInt.

(* ===================================================================== *)
(** ** Package time: durations are int64 nanosecond counts *)
(* ===================================================================== *)

Module time.

Definition Duration := Z.

Definition Nanosecond : Duration := 1.
Definition Microsecond : Duration := 1000 * Nanosecond.
Definition Millisecond : Duration := 1000 * Microsecond.
Definition Second : Duration := 1000 * Millisecond.
Definition Minute : Duration := 60 * Second.
Definition Hour : Duration := 60 * Minute.

End time.

(* ===================================================================== *)
(** ** Package config *)
(* ===================================================================== *)

Module config.

(** [type DbType string]. *)
Definition DbType := string.

(** [const DBSqlite DbType = "sqlite"]. *)
Definition DBSqlite : DbType := "sqlite".

(** The configuration structs are declared outside the embedded files;
    their fields are the ones the default literals set.  The [*DbConfig]
    etc. pointers held by [AppConfig] refer to existing objects and are
    modelled by the objects themselves. *)
Module DbConfig.
Record t := mk
  { Type_ : DbType;
    FilePath : string;
    Dsn : string;
    SchemaPath : string;
    PreparedDb : bool;
    PreparedDbFilePath : string }.
End DbConfig.

Module HTTPConfig.
Record t := mk
  { ReadTimeout : Z;
    WriteTimeout : Z;
    Port : Z;
    UrlPrefix : string;
    UseAuth : bool;
    AuthToken : string }.
End HTTPConfig.

Module MerkleRootConfig.
Record t := mk { MaxBlockHeightExcess : Z }.
End MerkleRootConfig.

Module WebsocketConfig.
Record t := mk { HistoryMax : Z; HistoryTTL : Z }.
End WebsocketConfig.

Module WebhookConfig.
Record t := mk { MaxTries : Z }.
End WebhookConfig.

(** [p2pconfig.Config]. *)
Module P2PConfig.
Record t := mk
  { LogLevel : string;
    LogDir : string;
    MaxPeers : Z;
    MaxPeersPerIP : Z;
    BanDuration : time.Duration;
    MinSyncPeerNetworkSpeed : Z;
    ExcessiveBlockSize : Z;
    TrickleInterval : time.Duration;
    BlocksForForkConfirmation : Z }.
End P2PConfig.

Module AppConfig.
Record t := mk
  { DbConfig : DbConfig.t;
    HTTPConfig : HTTPConfig.t;
    MerkleRootConfig : MerkleRootConfig.t;
    WebsocketConfig : WebsocketConfig.t;
    WebhookConfig : WebhookConfig.t;
    P2PConfig : P2PConfig.t }.
End AppConfig.

Definition getDbDefaults : DbConfig.t :=
  {| DbConfig.Type_ := DBSqlite;
     DbConfig.FilePath := "./data/blockheaders.db";
     DbConfig.Dsn := "file:./data/blockheaders.db?_foreign_keys=true&pooling=true";
     DbConfig.SchemaPath := "./database/migrations";
     DbConfig.PreparedDb := false;
     DbConfig.PreparedDbFilePath := "./data/blockheaders.csv.gz" |}.

Definition getAuthConfigDefaults : HTTPConfig.t :=
  {| HTTPConfig.ReadTimeout := 10;
     HTTPConfig.WriteTimeout := 10;
     HTTPConfig.Port := 8080;
     HTTPConfig.UrlPrefix := "/api/v1";
     HTTPConfig.UseAuth := true;
     HTTPConfig.AuthToken := "mQZQ6WmxURxWz5ch" |}.

Definition getMerkleRootDefaults : MerkleRootConfig.t :=
  {| MerkleRootConfig.MaxBlockHeightExcess := 6 |}.

Definition getWebsocketDefaults : WebsocketConfig.t :=
  {| WebsocketConfig.HistoryMax := 300;
     WebsocketConfig.HistoryTTL := 10 |}.

Definition getWebhookDefaults : WebhookConfig.t :=
  {| WebhookConfig.MaxTries := 10 |}.

Definition getP2PDefaults : P2PConfig.t :=
  {| P2PConfig.LogLevel := "info";
     P2PConfig.LogDir := "./logs";
     P2PConfig.MaxPeers := 125;
     P2PConfig.MaxPeersPerIP := 5;
     P2PConfig.BanDuration := time.Hour * 24;
     P2PConfig.MinSyncPeerNetworkSpeed := 51200;
     P2PConfig.ExcessiveBlockSize := 128000000;
     P2PConfig.TrickleInterval := 50 * time.Millisecond;
     P2PConfig.BlocksForForkConfirmation := 10 |}.

Definition GetDefaultAppConfig : AppConfig.t :=
  {| AppConfig.DbConfig := getDbDefaults;
     AppConfig.HTTPConfig := getAuthConfigDefaults;
     AppConfig.MerkleRootConfig := getMerkleRootDefaults;
     AppConfig.WebsocketConfig := getWebsocketDefaults;
     AppConfig.WebhookConfig := getWebhookDefaults;
     AppConfig.P2PConfig := getP2PDefaults |}.

End config.

(* ===================================================================== *)
(** ** Go values shared by the packages *)
(* ===================================================================== *)

Module Go.

(** An [error] interface value: nil, or an error carrying its message. *)
Definition error := option string.

(** What a call does: it returns a value or panics (here always with a
    nil-pointer dereference, the only run-time panic the embedded code can
    raise). *)
Inductive outcome (A : Type) : Type :=
| Returns (a : A)
| Panics.
Arguments Returns {A} a.
Arguments Panics {A}.

(** A slice is nil, or non-nil with its elements (possibly none). *)
Inductive slice (A : Type) : Type :=
| nil_slice
| mk_slice (l : list A).
Arguments nil_slice {A}.
Arguments mk_slice {A} l.

Definition elems {A} (s : slice A) : list A :=
  match s with
  | nil_slice => []
  | mk_slice l => l
  end.

Definition len {A} (s : slice A) : nat := length (elems s).

Definition is_nil {A} (s : slice A) : bool :=
  match s with
  | nil_slice => true
  | mk_slice _ => false
  end.

(** [append(s, x)]: the result holds one element at least, so it is never
    the nil slice. *)
Definition append {A} (s : slice A) (x : A) : slice A :=
  mk_slice (elems s ++ [x]).

(** [make([]T, 0)]. *)
Definition make0 {A} : slice A := mk_slice [].

End Go.

(* ===================================================================== *)
(** ** Package math/big, as far as the conversions use it *)
(* ===================================================================== *)

Module big.

(** A [*big.Int]: nil or an integer of any size. *)
Definition Int := option Z.

(** [big.NewInt(x)]. *)
Definition NewInt (x : Z) : Int := Some x.

(** [Int.String]: the base-10 text, with a leading minus sign for a
    negative value, ["0"] for zero and ["<nil>"] for the nil pointer. *)
Definition Int_String (x : Int) : string :=
  match x with
  | None => "<nil>"
  | Some v => NilZero.string_of_int (Z.to_int v)
  end.

(** The optional sign that [SetString] scans first. *)
Definition scanSign (s : string) : bool * string :=
  match s with
  | String "+" r => (false, r)
  | String "-" r => (true, r)
  | _ => (false, s)
  end.

(** [new(big.Int).SetString(s, 10)]: an optional sign followed by one or
    more decimal digits, nothing else; on failure the pointer is nil and
    the flag false. *)
Definition SetString (s : string) : Int * bool :=
  let (neg, r) := scanSign s in
  match NilZero.uint_of_string r with
  | Some d => (Some (if neg then - Z.of_uint d else Z.of_uint d), true)
  | None => (None, false)
  end.

(** Texts made of the ASCII digits 0 to 9 only. *)
Definition is_digit (c : ascii) : bool :=
  ((48 <=? nat_of_ascii c) && (nat_of_ascii c <=? 57))%nat.

Definition all_digits (s : string) : bool :=
  forallb is_digit (list_ascii_of_string s).

End big.

(* ===================================================================== *)
(** ** Package database/sql *)
(* ===================================================================== *)

Module sql.

Module NullString.
Record t := mk { String_ : string; Valid : bool }.
End NullString.

End sql.

(* ===================================================================== *)
(** ** Declarations imported from files outside the embedded ones *)
(* ===================================================================== *)

(** The package [chainhash], the method [HeaderState.String] and the type
    [time.Time] are used by the conversions but declared elsewhere.  They
    are an interface of the development: every definition and theorem below
    is stated for an arbitrary implementation.
    - [NewHashFromStr] returns a [*Hash] and an [error], independently nil
      or not, exactly as its Go signature allows;
    - [HeaderState] is convertible from [string] (the source converts with
      [domains.HeaderState(dbh.State)]), so it is a string type. *)
Module imports.

Class API : Type :=
  { Time : Type;
    Hash : Type;
    Hash_String : Hash -> string;
    NewHashFromStr : string -> option Hash * Go.error;
    HeaderState_String : string -> string }.

End imports.

(* ===================================================================== *)
(** ** Package domains *)
(* ===================================================================== *)

Module domains.

Definition HeaderState := string.

Module BlockHeader.
Record t `{imports.API} := mk
  { Height : Z;
    Hash : imports.Hash;
    Version : Z;
    MerkleRoot : imports.Hash;
    Timestamp : imports.Time;
    Bits : Z;
    Nonce : Z;
    State : HeaderState;
    Chainwork : big.Int;
    CumulatedWork : big.Int;
    PreviousBlock : imports.Hash }.
End BlockHeader.

(** Modelled from the spec: the type [MerkleRootConfirmationState] and its
    three constants are declared outside the embedded files; section 3 of
    the specification lists the confirmation of a Merkle root as one of
    [Confirmed], [UnableToVerify], [Invalid]. *)
Inductive MerkleRootConfirmationState : Set :=
| Confirmed
| UnableToVerify
| Invalid.

Module MerkleRootConfirmation.
Record t := mk
  { MerkleRoot : string;
    BlockHeight : Z;
    Hash : string;
    Confirmation : MerkleRootConfirmationState }.
End MerkleRootConfirmation.

End domains.

(* ===================================================================== *)
(** ** Package dto *)
(* ===================================================================== *)

Module dto.

Import Go.

Module DbBlockHeader.
Record t `{imports.API} := mk
  { Height : Z;
    Hash : string;
    Version : Z;
    MerkleRoot : string;
    Timestamp : imports.Time;
    Bits : Z;
    Nonce : Z;
    State : string;
    Chainwork : string;
    CumulatedWork : string;
    PreviousBlock : string }.

(** The assignment [dbh.CumulatedWork = v]. *)
Definition set_CumulatedWork `{imports.API} (dbh : t) (v : string) : t :=
  {| Height := Height dbh;
     Hash := Hash dbh;
     Version := Version dbh;
     MerkleRoot := MerkleRoot dbh;
     Timestamp := Timestamp dbh;
     Bits := Bits dbh;
     Nonce := Nonce dbh;
     State := State dbh;
     Chainwork := Chainwork dbh;
     CumulatedWork := v;
     PreviousBlock := PreviousBlock dbh |}.

(** The same row with another [Chainwork] column. *)
Definition with_Chainwork `{imports.API} (dbh : t) (v : string) : t :=
  {| Height := Height dbh;
     Hash := Hash dbh;
     Version := Version dbh;
     MerkleRoot := MerkleRoot dbh;
     Timestamp := Timestamp dbh;
     Bits := Bits dbh;
     Nonce := Nonce dbh;
     State := State dbh;
     Chainwork := v;
     CumulatedWork := CumulatedWork dbh;
     PreviousBlock := PreviousBlock dbh |}.
End DbBlockHeader.

Module DbMerkleRootConfirmation.
Record t := mk
  { MerkleRoot : string;
    BlockHeight : Z;
    Hash : sql.NullString.t;
    TipHeight : Z }.
End DbMerkleRootConfirmation.

Section Conversions.

Context `{imports.API}.

(** [ToBlockHeader] has a pointer receiver and writes to it: the model takes
    the record the receiver points to and gives back the record as the call
    leaves it, with the outcome of the call.  The three dereferences
    [*hash], [*merkleTree], [*prevBlock] panic on a nil pointer. *)
Definition ToBlockHeader (dbh : DbBlockHeader.t)
  : DbBlockHeader.t * outcome domains.BlockHeader.t :=
  let dbh :=
    if String.eqb (DbBlockHeader.CumulatedWork dbh) ""
    then DbBlockHeader.set_CumulatedWork dbh "0"
    else dbh in
  let cumulatedWork :=
    match big.SetString (DbBlockHeader.CumulatedWork dbh) with
    | (z, true) => z
    | (_, false) => big.NewInt 0
    end in
  let chainWork :=
    match big.SetString (DbBlockHeader.Chainwork dbh) with
    | (z, true) => z
    | (_, false) => big.NewInt 0
    end in
  let (hash, _) := imports.NewHashFromStr (DbBlockHeader.Hash dbh) in
  let (merkleTree, _) := imports.NewHashFromStr (DbBlockHeader.MerkleRoot dbh) in
  let (prevBlock, _) := imports.NewHashFromStr (DbBlockHeader.PreviousBlock dbh) in
  (dbh,
   match hash, merkleTree, prevBlock with
   | Some hash', Some merkleTree', Some prevBlock' =>
       Returns
         {| domains.BlockHeader.Height := DbBlockHeader.Height dbh;
            domains.BlockHeader.Hash := hash';
            domains.BlockHeader.Version := DbBlockHeader.Version dbh;
            domains.BlockHeader.MerkleRoot := merkleTree';
            domains.BlockHeader.Timestamp := DbBlockHeader.Timestamp dbh;
            domains.BlockHeader.Bits := DbBlockHeader.Bits dbh;
            domains.BlockHeader.Nonce := DbBlockHeader.Nonce dbh;
            domains.BlockHeader.Chainwork := chainWork;
            domains.BlockHeader.CumulatedWork := cumulatedWork;
            domains.BlockHeader.State := DbBlockHeader.State dbh;
            domains.BlockHeader.PreviousBlock := prevBlock' |}
   | _, _, _ => Panics
   end).

(** The value [ToBlockHeader] keeps for a work column: the parsed integer,
    or a fresh zero when [SetString] reports failure. *)
Definition work_or_zero (column : string) : big.Int :=
  match big.SetString column with
  | (z, true) => z
  | (_, false) => big.NewInt 0
  end.

(** The three hash columns of a row give a hash each (a non-nil pointer). *)
Definition hashes_parse (dbh : DbBlockHeader.t) : Prop :=
  is_Some (fst (imports.NewHashFromStr (DbBlockHeader.Hash dbh)))
  /\ is_Some (fst (imports.NewHashFromStr (DbBlockHeader.MerkleRoot dbh)))
  /\ is_Some (fst (imports.NewHashFromStr (DbBlockHeader.PreviousBlock dbh))).

(** [ToDbBlockHeader] takes its argument by value and returns a value. *)
Definition ToDbBlockHeader (bh : domains.BlockHeader.t) : DbBlockHeader.t :=
  {| DbBlockHeader.Height := domains.BlockHeader.Height bh;
     DbBlockHeader.Hash := imports.Hash_String (domains.BlockHeader.Hash bh);
     DbBlockHeader.Version := domains.BlockHeader.Version bh;
     DbBlockHeader.MerkleRoot :=
       imports.Hash_String (domains.BlockHeader.MerkleRoot bh);
     DbBlockHeader.Timestamp := domains.BlockHeader.Timestamp bh;
     DbBlockHeader.Bits := domains.BlockHeader.Bits bh;
     DbBlockHeader.Nonce := domains.BlockHeader.Nonce bh;
     DbBlockHeader.State :=
       imports.HeaderState_String (domains.BlockHeader.State bh);
     DbBlockHeader.Chainwork :=
       big.Int_String (domains.BlockHeader.Chainwork bh);
     DbBlockHeader.CumulatedWork :=
       big.Int_String (domains.BlockHeader.CumulatedWork bh);
     DbBlockHeader.PreviousBlock :=
       imports.Hash_String (domains.BlockHeader.PreviousBlock bh) |}.

(** *** The slice of header pointers

    [ConvertToBlockHeader] receives pointers to records that
    [ToBlockHeader] updates in place, and one record may be referenced from
    several positions of the slice.  The records therefore live in a store
    indexed by address; a pointer is nil or an address. *)
Definition ptr := option nat.
Definition store := gmap nat DbBlockHeader.t.

(** [header.ToBlockHeader()] through a pointer: reading
    [dbh.CumulatedWork] panics for the nil pointer (and for an address
    without a record, which a Go program cannot build). *)
Definition ToBlockHeader_at (header : ptr) (st : store)
  : store * outcome domains.BlockHeader.t :=
  match header with
  | None => (st, Panics)
  | Some a =>
      match st !! a with
      | None => (st, Panics)
      | Some dbh =>
          let (dbh', r) := ToBlockHeader dbh in (<[a := dbh']> st, r)
      end
  end.

(** The [for ... range] loop of [ConvertToBlockHeader], with the
    accumulator [blockHeaders].  The [*domains.BlockHeader] results are
    fresh allocations; they are modelled by the records. *)
Fixpoint ConvertToBlockHeader_loop (rest : list ptr)
    (blockHeaders : slice domains.BlockHeader.t) (st : store)
  : store * outcome (slice domains.BlockHeader.t) :=
  match rest with
  | [] => (st, Returns blockHeaders)
  | header :: rest' =>
      match ToBlockHeader_at header st with
      | (st', Returns h) =>
          ConvertToBlockHeader_loop rest' (append blockHeaders h) st'
      | (st', Panics) => (st', Panics)
      end
  end.

Definition ConvertToBlockHeader (dbBlockHeaders : slice ptr) (st : store)
  : store * outcome (slice domains.BlockHeader.t) :=
  match dbBlockHeaders with
  | mk_slice hs => ConvertToBlockHeader_loop hs nil_slice st
  | nil_slice => (st, Returns nil_slice)
  end.

(** Reading the slice against one store: the record a pointer refers to,
    and the outcome of [ToBlockHeader] on that record. *)
Definition deref (st : store) (p : ptr) : option DbBlockHeader.t :=
  match p with
  | None => None
  | Some a => st !! a
  end.

Definition ToBlockHeader_of (st : store) (p : ptr)
  : outcome domains.BlockHeader.t :=
  match deref st p with
  | None => Panics
  | Some dbh => snd (ToBlockHeader dbh)
  end.

(** [st'] is [st] where some records have been through [ToBlockHeader]. *)
Definition touched (st st' : store) : Prop :=
  forall a : nat,
    st' !! a = st !! a
    \/ exists dbh, st !! a = Some dbh /\ st' !! a = Some (fst (ToBlockHeader dbh)).

End Conversions.

(** [ToMerkleRootConfirmation]: the heights are int32, the excess is an
    int; the subtraction, the addition and the conversion wrap around. *)
Definition ToMerkleRootConfirmation (dbMerkleConfm : DbMerkleRootConfirmation.t)
    (maxBlockHeightExcess : Z) : domains.MerkleRootConfirmation.t :=
  let confmState :=
    if sql.NullString.Valid (DbMerkleRootConfirmation.Hash dbMerkleConfm)
    then domains.Confirmed
    else if (DbMerkleRootConfirmation.BlockHeight dbMerkleConfm
               >? DbMerkleRootConfirmation.TipHeight dbMerkleConfm)%Z
            && (GoInt.int32_sub
                  (DbMerkleRootConfirmation.BlockHeight dbMerkleConfm)
                  (DbMerkleRootConfirmation.TipHeight dbMerkleConfm)
                <? GoInt.to_int32 (GoInt.int_add maxBlockHeightExcess 1))%Z
    then domains.UnableToVerify
    else domains.Invalid in
  {| domains.MerkleRootConfirmation.MerkleRoot :=
       DbMerkleRootConfirmation.MerkleRoot dbMerkleConfm;
     domains.MerkleRootConfirmation.BlockHeight :=
       DbMerkleRootConfirmation.BlockHeight dbMerkleConfm;
     domains.MerkleRootConfirmation.Hash :=
       sql.NullString.String_ (DbMerkleRootConfirmation.Hash dbMerkleConfm);
     domains.MerkleRootConfirmation.Confirmation := confmState |}.

(** The loop of [ConvertToMerkleRootsConfirmations].  The records are only
    read, so a pointer is modelled by nil or the record it points to;
    reading [dbMerkleConfm.Hash.Valid] through nil panics. *)
Fixpoint ConvertToMerkleRootsConfirmations_loop
    (rest : list (option DbMerkleRootConfirmation.t))
    (maxBlockHeightExcess : Z)
    (merklesConfms : slice domains.MerkleRootConfirmation.t)
  : outcome (slice domains.MerkleRootConfirmation.t) :=
  match rest with
  | [] => Returns merklesConfms
  | None :: _ => Panics
  | Some merkleConfm :: rest' =>
      let m := ToMerkleRootConfirmation merkleConfm maxBlockHeightExcess in
      ConvertToMerkleRootsConfirmations_loop rest' maxBlockHeightExcess
        (append merklesConfms m)
  end.

Definition ConvertToMerkleRootsConfirmations
    (dbMerkleConfms : slice (option DbMerkleRootConfirmation.t))
    (maxBlockHeightExcess : Z)
  : outcome (slice domains.MerkleRootConfirmation.t) :=
  let merklesConfms := make0 in
  ConvertToMerkleRootsConfirmations_loop (elems dbMerkleConfms)
    maxBlockHeightExcess merklesConfms.

End dto.

(* ===================================================================== *)
(** ** Package database *)
(* ===================================================================== *)

Module database.

Import Go.

Section Programs.

(** [sqlx.DB] objects and [logging.Logger] values are opaque here: the
    package only passes them on. *)
Context {DB Logger : Type}.

(** The calls that leave the embedded file: the two methods of
    [SQLiteAdapter] and the function [ImportHeaders], all defined in other
    files of the package.  A call carries its arguments. *)
Inductive Call : Type :=
| SQLiteAdapter_Connect (cfg : config.DbConfig.t)
| SQLiteAdapter_DoMigrations (db : option DB) (cfg : config.DbConfig.t)
| ImportHeaders (db : option DB) (cfg : config.AppConfig.t) (log : Logger).

(** What each call gives back, following the Go signatures:
    a [*sqlx.DB] with an [error] for [Connect], an [error] for the two
    others. *)
Definition Answer (c : Call) : Type :=
  match c with
  | SQLiteAdapter_Connect _ => (option DB * error)%type
  | SQLiteAdapter_DoMigrations _ _ => error
  | ImportHeaders _ _ _ => error
  end.

(** A computation of the package: it returns, performs an outside call and
    goes on with the answer, or panics. *)
Inductive Prog (A : Type) : Type :=
| Ret (a : A)
| Do (c : Call) (k : Answer c -> Prog A)
| Panic.
Arguments Ret {A} a.
Arguments Do {A} c k.
Arguments Panic {A}.

Fixpoint bind {A B} (p : Prog A) (f : A -> Prog B) : Prog B :=
  match p with
  | Ret a => f a
  | Do c k => Do c (fun x => bind (k x) f)
  | Panic => Panic
  end.

Definition call (c : Call) : Prog (Answer c) := Do c Ret.

(** The interface [DBAdapter]: its two methods. *)
Record DBAdapter : Type := mkDBAdapter
  { DBAdapter_Connect : config.DbConfig.t -> Prog (option DB * error);
    DBAdapter_DoMigrations : option DB -> config.DbConfig.t -> Prog error }.

(** [&SQLiteAdapter{}]: its methods are the outside calls. *)
Definition SQLiteAdapter : DBAdapter :=
  {| DBAdapter_Connect := fun cfg => call (SQLiteAdapter_Connect cfg);
     DBAdapter_DoMigrations :=
       fun db cfg => call (SQLiteAdapter_DoMigrations db cfg) |}.

(** [NewDBAdapter]: the switch on [cfg.Type].  The error is
    [fmt.Errorf("unsupported database type %s", cfg.Type)]. *)
Definition NewDBAdapter (cfg : config.DbConfig.t) : option DBAdapter * error :=
  if String.eqb (config.DbConfig.Type_ cfg) config.DBSqlite
  then (Some SQLiteAdapter, None)
  else (None, Some ("unsupported database type " ++ config.DbConfig.Type_ cfg)).

(** A method call through a nil interface value panics. *)
Definition Connect (cfg : config.DbConfig.t) : Prog (option DB * error) :=
  let (adapter, err) := NewDBAdapter cfg in
  match err with
  | Some _ => Ret (None, err)
  | None =>
      match adapter with
      | Some a => DBAdapter_Connect a cfg
      | None => Panic
      end
  end.

Definition DoMigrations (db : option DB) (cfg : config.DbConfig.t)
  : Prog error :=
  let (adapter, err) := NewDBAdapter cfg in
  match err with
  | Some _ => Ret err
  | None =>
      match adapter with
      | Some a => DBAdapter_DoMigrations a db cfg
      | None => Panic
      end
  end.

Definition Init (cfg : config.AppConfig.t) (log : Logger)
  : Prog (option DB * error) :=
  bind (Connect (config.AppConfig.DbConfig cfg)) (fun '(db, err) =>
  match err with
  | Some _ => Ret (None, err)
  | None =>
      bind (DoMigrations db (config.AppConfig.DbConfig cfg)) (fun err =>
      match err with
      | Some _ => Ret (None, err)
      | None =>
          if config.DbConfig.PreparedDb (config.AppConfig.DbConfig cfg)
          then
            bind (call (ImportHeaders db cfg log)) (fun err =>
            match err with
            | Some _ => Ret (None, err)
            | None => Ret (db, None)
            end)
          else Ret (db, None)
      end)
  end).

(** *** Running a computation

    The outside world is a state [W]; an environment answers each call from
    the current state and moves to the next one.  [run] gives the outcome,
    the final state and the calls made, in order. *)
Definition Env (W : Type) : Type := forall c : Call, W -> Answer c * W.

Fixpoint run_from {W A} (env : Env W) (p : Prog A) (w : W) (tr : list Call)
  : outcome A * W * list Call :=
  match p with
  | Ret a => (Returns a, w, tr)
  | Do c k => let (x, w') := env c w in run_from env (k x) w' (tr ++ [c])
  | Panic => (Panics, w, tr)
  end.

Definition run {W A} (env : Env W) (p : Prog A) (w : W)
  : outcome A * W * list Call :=
  run_from env p w [].

Definition is_ImportHeaders (c : Call) : bool :=
  match c with
  | ImportHeaders _ _ _ => true
  | _ => false
  end.

(** [Init] called [ImportHeaders] during a run. *)
Definition calls_ImportHeaders {W A} (r : outcome A * W * list Call) : bool :=
  existsb is_ImportHeaders (snd r).

End Programs.

Arguments Call : clear implicits.
Arguments Prog : clear implicits.
Arguments DBAdapter : clear implicits.
Arguments Env : clear implicits.

End database.

(* ===================================================================== *)
(** ** The specification's reading of a Merkle-root confirmation *)
(* ===================================================================== *)

Module Spec.

(** Section 3 of the specification, over mathematical integers:
    [Confirmed] if a longest-chain header at the height has the root (the
    stored hash is present); [UnableToVerify] if the height is above the
    tip and exceeds it by at most [MaxBlockHeightExcess]; [Invalid]
    otherwise. *)
Definition confirmation (d : dto.DbMerkleRootConfirmation.t)
    (maxBlockHeightExcess : Z) : domains.MerkleRootConfirmationState :=
  if sql.NullString.Valid (dto.DbMerkleRootConfirmation.Hash d)
  then domains.Confirmed
  else if (dto.DbMerkleRootConfirmation.BlockHeight d
             >? dto.DbMerkleRootConfirmation.TipHeight d)%Z
          && (dto.DbMerkleRootConfirmation.BlockHeight d
                - dto.DbMerkleRootConfirmation.TipHeight d
              <=? maxBlockHeightExcess)%Z
  then domains.UnableToVerify
  else domains.Invalid.

End Spec.

(* ===================================================================== *)
(** ** A reference implementation of the imported declarations *)
(* ===================================================================== *)

(** An implementation of [imports.API] on which the theorems are exercised:
    hashes are 32 bytes, printed as the hexadecimal text of the bytes in
    reverse order and parsed back from at most 64 hexadecimal digits;
    a timestamp is a count of nanoseconds; the string of a header state is
    the state. *)
Module reference.

Definition HashSize : nat := 32.
Definition MaxHashStringSize : nat := 64.

Definition hexdigits : list ascii :=
  list_ascii_of_string "0123456789abcdef".

Definition hexdigit (n : nat) : ascii := nth n hexdigits "0"%char.

Definition fromHexChar (c : ascii) : option nat :=
  let n := nat_of_ascii c in
  if (48 <=? n)%nat && (n <=? 57)%nat then Some (n - 48)%nat
  else if (97 <=? n)%nat && (n <=? 102)%nat then Some (n - 97 + 10)%nat
  else if (65 <=? n)%nat && (n <=? 70)%nat then Some (n - 65 + 10)%nat
  else None.

Fixpoint hex_encode (bs : list nat) : string :=
  match bs with
  | [] => ""
  | b :: bs' =>
      String (hexdigit (b / 16)) (String (hexdigit (b mod 16)) (hex_encode bs'))
  end.

Fixpoint hex_decode (s : string) : option (list nat) :=
  match s with
  | "" => Some []
  | String hi (String lo r) =>
      match fromHexChar hi, fromHexChar lo, hex_decode r with
      | Some h, Some l, Some bs => Some ((h * 16 + l)%nat :: bs)
      | _, _, _ => None
      end
  | String _ "" => None
  end.

Definition Hash_String (h : list nat) : string := hex_encode (rev h).

Definition NewHashFromStr (s : string) : option (list nat) * Go.error :=
  if (MaxHashStringSize <? String.length s)%nat
  then (None, Some "max hash string length is 64 bytes")
  else
    let src := if Nat.even (String.length s) then s else String "0" s in
    match hex_decode src with
    | None => (None, Some "encoding/hex: invalid byte")
    | Some bs =>
        (Some (rev (repeat 0%nat (HashSize - List.length bs) ++ bs)), None)
    end.

Definition API : imports.API :=
  {| imports.Time := Z;
     imports.Hash := list nat;
     imports.Hash_String := Hash_String;
     imports.NewHashFromStr := NewHashFromStr;
     imports.HeaderState_String := fun s => s |}.

#[local] Existing Instance API.

(** Sample data: the hash of all bytes [i] for [i] from 1 to 32, a block
    header carrying it, and the row a header query could give back with an
    empty work column. *)
Definition sample_hash : list nat := seq 1 32.

Definition sample_header : @domains.BlockHeader.t API :=
  {| domains.BlockHeader.Height := 100;
     domains.BlockHeader.Hash := sample_hash;
     domains.BlockHeader.Version := 536870912;
     domains.BlockHeader.MerkleRoot := rev sample_hash;
     domains.BlockHeader.Timestamp := 1700000000000000000;
     domains.BlockHeader.Bits := 403014710;
     domains.BlockHeader.Nonce := 2083236893;
     domains.BlockHeader.State := "LONGEST_CHAIN";
     domains.BlockHeader.Chainwork := Some 4295032833;
     domains.BlockHeader.CumulatedWork := Some 340282366920938463463374607431768211456;
     domains.BlockHeader.PreviousBlock := repeat 0%nat 32 |}.

Definition sample_row : @dto.DbBlockHeader.t API :=
  {| dto.DbBlockHeader.Height := 7;
     dto.DbBlockHeader.Hash := Hash_String sample_hash;
     dto.DbBlockHeader.Version := 1;
     dto.DbBlockHeader.MerkleRoot := Hash_String (rev sample_hash);
     dto.DbBlockHeader.Timestamp := 1231006505000000000;
     dto.DbBlockHeader.Bits := 486604799;
     dto.DbBlockHeader.Nonce := 1;
     dto.DbBlockHeader.State := "STALE";
     dto.DbBlockHeader.Chainwork := "0x10";
     dto.DbBlockHeader.CumulatedWork := "";
     dto.DbBlockHeader.PreviousBlock := "00" |}.

(** The same row with a hash column that is not hexadecimal. *)
Definition broken_row : @dto.DbBlockHeader.t API :=
  {| dto.DbBlockHeader.Height := 7;
     dto.DbBlockHeader.Hash := "not a hash";
     dto.DbBlockHeader.Version := 1;
     dto.DbBlockHeader.MerkleRoot := Hash_String (rev sample_hash);
     dto.DbBlockHeader.Timestamp := 1231006505000000000;
     dto.DbBlockHeader.Bits := 486604799;
     dto.DbBlockHeader.Nonce := 1;
     dto.DbBlockHeader.State := "STALE";
     dto.DbBlockHeader.Chainwork := "16";
     dto.DbBlockHeader.CumulatedWork := "16";
     dto.DbBlockHeader.PreviousBlock := "00" |}.

(** A database configuration of another type, and the default application
    configuration with the prepared-database import switched on. *)
Definition postgres_config : config.DbConfig.t :=
  {| config.DbConfig.Type_ := "postgresql";
     config.DbConfig.FilePath := "";
     config.DbConfig.Dsn := "postgres://localhost/headers";
     config.DbConfig.SchemaPath := "./database/migrations";
     config.DbConfig.PreparedDb := false;
     config.DbConfig.PreparedDbFilePath := "" |}.

Definition prepared_config : config.AppConfig.t :=
  {| config.AppConfig.DbConfig :=
       {| config.DbConfig.Type_ := config.DBSqlite;
          config.DbConfig.FilePath := "./data/blockheaders.db";
          config.DbConfig.Dsn :=
            "file:./data/blockheaders.db?_foreign_keys=true&pooling=true";
          config.DbConfig.SchemaPath := "./database/migrations";
          config.DbConfig.PreparedDb := true;
          config.DbConfig.PreparedDbFilePath := "./data/blockheaders.csv.gz" |};
     config.AppConfig.HTTPConfig := config.getAuthConfigDefaults;
     config.AppConfig.MerkleRootConfig := config.getMerkleRootDefaults;
     config.AppConfig.WebsocketConfig := config.getWebsocketDefaults;
     config.AppConfig.WebhookConfig := config.getWebhookDefaults;
     config.AppConfig.P2PConfig := config.getP2PDefaults |}.

(** An outside world for [Init]: database handles and loggers are numbers,
    the state counts the calls made; the adapter connects to handle 7 and
    migrates without error, and the import fails or not as asked. *)
Definition sample_env (import_error : Go.error)
  : database.Env nat nat nat :=
  fun c w =>
    match c as c0 return (database.Answer c0 * nat)%type with
    | database.SQLiteAdapter_Connect _ => ((Some 7%nat, None), S w)
    | database.SQLiteAdapter_DoMigrations _ _ => (None, S w)
    | database.ImportHeaders _ _ _ => (import_error, S w)
    end.

(** A second header, with the bytes of the hash in the opposite order, and
    a row whose work columns carry signs and leading zeros. *)
Definition other_header : @domains.BlockHeader.t API :=
  {| domains.BlockHeader.Height := 100;
     domains.BlockHeader.Hash := rev sample_hash;
     domains.BlockHeader.Version := 536870912;
     domains.BlockHeader.MerkleRoot := rev sample_hash;
     domains.BlockHeader.Timestamp := 1700000000000000000;
     domains.BlockHeader.Bits := 403014710;
     domains.BlockHeader.Nonce := 2083236893;
     domains.BlockHeader.State := "LONGEST_CHAIN";
     domains.BlockHeader.Chainwork := Some 4295032833;
     domains.BlockHeader.CumulatedWork := None;
     domains.BlockHeader.PreviousBlock := repeat 0%nat 32 |}.

Definition signed_row : @dto.DbBlockHeader.t API :=
  {| dto.DbBlockHeader.Height := 8;
     dto.DbBlockHeader.Hash := Hash_String sample_hash;
     dto.DbBlockHeader.Version := 1;
     dto.DbBlockHeader.MerkleRoot := Hash_String (rev sample_hash);
     dto.DbBlockHeader.Timestamp := 1231006505000000000;
     dto.DbBlockHeader.Bits := 486604799;
     dto.DbBlockHeader.Nonce := 1;
     dto.DbBlockHeader.State := "STALE";
     dto.DbBlockHeader.Chainwork := "+0042";
     dto.DbBlockHeader.CumulatedWork := "-15";
     dto.DbBlockHeader.PreviousBlock := "00" |}.

(** The default application configuration on the PostgreSQL database
    configuration, with the import switched on. *)
Definition postgres_app_config : config.AppConfig.t :=
  {| config.AppConfig.DbConfig :=
       {| config.DbConfig.Type_ := config.DbConfig.Type_ postgres_config;
          config.DbConfig.FilePath := config.DbConfig.FilePath postgres_config;
          config.DbConfig.Dsn := config.DbConfig.Dsn postgres_config;
          config.DbConfig.SchemaPath := config.DbConfig.SchemaPath postgres_config;
          config.DbConfig.PreparedDb := true;
          config.DbConfig.PreparedDbFilePath := "./data/blockheaders.csv.gz" |};
     config.AppConfig.HTTPConfig := config.getAuthConfigDefaults;
     config.AppConfig.MerkleRootConfig := config.getMerkleRootDefaults;
     config.AppConfig.WebsocketConfig := config.getWebsocketDefaults;
     config.AppConfig.WebhookConfig := config.getWebhookDefaults;
     config.AppConfig.P2PConfig := config.getP2PDefaults |}.

End reference.

(* ===================================================================== *)
(** ** Base-10 reading of a text *)
(* ===================================================================== *)

(** The number a text of decimal digits denotes, most significant digit
    first, and the same reading of a [Decimal.uint]; they say what the
    integers parsed by [big.SetString] are. *)
Module digits.

Definition digit_value (c : ascii) : Z := Z.of_nat (nat_of_ascii c) - 48.

Definition value_from (acc : Z) (s : string) : Z :=
  fold_left (fun a c => 10 * a + digit_value c) (list_ascii_of_string s) acc.

Definition value (s : string) : Z := value_from 0 s.

Fixpoint horner (acc : Z) (d : Decimal.uint) : Z :=
  match d with
  | Decimal.Nil => acc
  | Decimal.D0 l => horner (10 * acc + 0) l
  | Decimal.D1 l => horner (10 * acc + 1) l
  | Decimal.D2 l => horner (10 * acc + 2) l
  | Decimal.D3 l => horner (10 * acc + 3) l
  | Decimal.D4 l => horner (10 * acc + 4) l
  | Decimal.D5 l => horner (10 * acc + 5) l
  | Decimal.D6 l => horner (10 * acc + 6) l
  | Decimal.D7 l => horner (10 * acc + 7) l
  | Decimal.D8 l => horner (10 * acc + 8) l
  | Decimal.D9 l => horner (10 * acc + 9) l
  end.

End digits.

(* ===================================================================== *)
(** * Properties *)
(* ===================================================================== *)

(** ** Machine integers *)

Section GoIntFacts.

Import GoInt.

Lemma wrap_in_range (w x : Z) : 0 < w -> in_range w x -> wrap w x = x.
Proof.
  unfold in_range, wrap. intros Hw Hx.
  assert (Hp : 2 ^ w = 2 * 2 ^ (w - 1)).
  { replace w with (Z.succ (w - 1)) at 1 by lia. apply Z.pow_succ_r. lia. }
  rewrite Z.mod_small; lia.
Qed.

Lemma wrap_range (w x : Z) : 0 < w -> in_range w (wrap w x).
Proof.
  unfold in_range, wrap. intros Hw.
  assert (Hp : 2 ^ w = 2 * 2 ^ (w - 1)).
  { replace w with (Z.succ (w - 1)) at 1 by lia. apply Z.pow_succ_r. lia. }
  assert (Hpos : 0 < 2 ^ (w - 1)) by (apply Z.pow_pos_nonneg; lia).
  pose proof (Z.mod_pos_bound (x + 2 ^ (w - 1)) (2 ^ w)). lia.
Qed.

(** Converting to int32 forgets everything above bit 31, so the width of
    [int] (32 or 64 bits) does not matter for [int32(maxBlockHeightExcess+1)]. *)
Lemma int32_of_int_width (x : Z) : to_int32 (wrap 64 x) = to_int32 (wrap 32 x).
Proof.
  unfold to_int32, wrap. f_equal.
  change (64 - 1) with 63. change (32 - 1) with 31.
  rewrite (Z.mod_eq (x + 2 ^ 63) (2 ^ 64)) by lia.
  rewrite (Z.mod_eq (x + 2 ^ 31) (2 ^ 32)) by lia.
  set (q := (x + 2 ^ 63) / 2 ^ 64). set (r := (x + 2 ^ 31) / 2 ^ 32).
  replace (x + 2 ^ 63 - 2 ^ 64 * q - 2 ^ 63 + 2 ^ 31)
    with (x + 2 ^ 31 + (- (2 ^ 32 * q)) * 2 ^ 32) by lia.
  replace (x + 2 ^ 31 - 2 ^ 32 * r - 2 ^ 31 + 2 ^ 31)
    with (x + 2 ^ 31 + (- r) * 2 ^ 32) by lia.
  now rewrite !Z_mod_plus_full.
Qed.

Lemma int32_sub_exact (a b : Z) : is_int32 (a - b) -> int32_sub a b = a - b.
Proof. intros Hr. apply wrap_in_range; [lia | exact Hr]. Qed.

Lemma to_int32_int_add_exact (m : Z) :
  - 2 ^ 31 - 1 <= m <= 2 ^ 31 - 2 -> to_int32 (int_add m 1) = m + 1.
Proof.
  intros Hm. unfold to_int32, int_add, intSize.
  rewrite (wrap_in_range 64) by (unfold in_range; simpl; lia).
  apply wrap_in_range; [lia | unfold in_range; simpl; lia].
Qed.

End GoIntFacts.

(** ** Default configuration: durations *)

(** C5. [GetDefaultAppConfig] sets [BanDuration] to 24 hours and
    [TrickleInterval] to 50 milliseconds; as nanosecond counts these are
    86 400 000 000 000 and 50 000 000, both within int64. *)
Theorem default_BanDuration_TrickleInterval :
  let p2p := config.AppConfig.P2PConfig config.GetDefaultAppConfig in
  config.P2PConfig.BanDuration p2p = 24 * time.Hour
  /\ config.P2PConfig.BanDuration p2p = 86400 * 1000000000 * time.Nanosecond
  /\ config.P2PConfig.TrickleInterval p2p = 50 * time.Millisecond
  /\ config.P2PConfig.TrickleInterval p2p = 50 * 1000000 * time.Nanosecond
  /\ GoInt.in_range 64 (config.P2PConfig.BanDuration p2p)
  /\ GoInt.in_range 64 (config.P2PConfig.TrickleInterval p2p).
Proof.
  cbn. repeat split; reflexivity || (vm_compute; congruence).
Qed.

(** ** Merkle-root confirmations *)

Section MerkleRootConfirmation.

Import dto.

Implicit Types (d : DbMerkleRootConfirmation.t) (m : Z).

(** A record whose hash is present is [Confirmed], whatever the heights and
    the excess. *)
Lemma ToMerkleRootConfirmation_valid d m :
  sql.NullString.Valid (DbMerkleRootConfirmation.Hash d) = true ->
  domains.MerkleRootConfirmation.Confirmation (ToMerkleRootConfirmation d m)
  = domains.Confirmed.
Proof. intros Hv. unfold ToMerkleRootConfirmation. cbn. now rewrite Hv. Qed.

(** The other fields are copied. *)
Lemma ToMerkleRootConfirmation_fields d m :
  let c := ToMerkleRootConfirmation d m in
  domains.MerkleRootConfirmation.MerkleRoot c = DbMerkleRootConfirmation.MerkleRoot d
  /\ domains.MerkleRootConfirmation.BlockHeight c = DbMerkleRootConfirmation.BlockHeight d
  /\ domains.MerkleRootConfirmation.Hash c
     = sql.NullString.String_ (DbMerkleRootConfirmation.Hash d).
Proof. now cbn. Qed.

(** Without wrap-around the code's test [BlockHeight - TipHeight <
    int32(maxBlockHeightExcess + 1)] is the specification's
    [BlockHeight - TipHeight <= maxBlockHeightExcess]. *)
Lemma ToMerkleRootConfirmation_refines d m :
  DbMerkleRootConfirmation.BlockHeight d - DbMerkleRootConfirmation.TipHeight d
    < 2 ^ 31 ->
  - 2 ^ 31 - 1 <= m <= 2 ^ 31 - 2 ->
  domains.MerkleRootConfirmation.Confirmation (ToMerkleRootConfirmation d m)
  = Spec.confirmation d m.
Proof.
  intros Hd Hm. unfold ToMerkleRootConfirmation, Spec.confirmation. cbn.
  destruct (sql.NullString.Valid (DbMerkleRootConfirmation.Hash d)); [reflexivity|].
  rewrite to_int32_int_add_exact by exact Hm.
  destruct (Z.gtb_spec (DbMerkleRootConfirmation.BlockHeight d)
              (DbMerkleRootConfirmation.TipHeight d)) as [Hgt|Hle]; cbn;
    [|reflexivity].
  rewrite int32_sub_exact by (unfold GoInt.is_int32, GoInt.in_range; simpl; lia).
  destruct (Z.ltb_spec
              (DbMerkleRootConfirmation.BlockHeight d
               - DbMerkleRootConfirmation.TipHeight d) (m + 1));
    destruct (Z.leb_spec
              (DbMerkleRootConfirmation.BlockHeight d
               - DbMerkleRootConfirmation.TipHeight d) m);
    reflexivity || lia.
Qed.

End MerkleRootConfirmation.

(** C1, as the specification states it, fails on the code.  With
    [BlockHeight = 1], [TipHeight = 0], no stored hash and
    [maxBlockHeightExcess = 2147483647] (all within their Go types) the
    height is above the tip by 1, which is at most the excess, yet
    [int32(maxBlockHeightExcess + 1)] wraps to -2147483648 and the result is
    [Invalid], not [UnableToVerify]. *)
Lemma ToMerkleRootConfirmation_wraps :
  let d := {| dto.DbMerkleRootConfirmation.MerkleRoot := "";
              dto.DbMerkleRootConfirmation.BlockHeight := 1;
              dto.DbMerkleRootConfirmation.Hash :=
                {| sql.NullString.String_ := ""; sql.NullString.Valid := false |};
              dto.DbMerkleRootConfirmation.TipHeight := 0 |} in
  let m := 2147483647 in
  GoInt.is_int32 (dto.DbMerkleRootConfirmation.BlockHeight d)
  /\ GoInt.is_int32 (dto.DbMerkleRootConfirmation.TipHeight d)
  /\ GoInt.is_int m
  /\ sql.NullString.Valid (dto.DbMerkleRootConfirmation.Hash d) = false
  /\ dto.DbMerkleRootConfirmation.BlockHeight d
     > dto.DbMerkleRootConfirmation.TipHeight d
  /\ dto.DbMerkleRootConfirmation.BlockHeight d
     - dto.DbMerkleRootConfirmation.TipHeight d <= m
  /\ Spec.confirmation d m = domains.UnableToVerify
  /\ domains.MerkleRootConfirmation.Confirmation (dto.ToMerkleRootConfirmation d m)
     = domains.Invalid
  /\ domains.MerkleRootConfirmation.Confirmation (dto.ToMerkleRootConfirmation d m)
     <> Spec.confirmation d m.
Proof.
  cbv zeta. unfold GoInt.is_int32, GoInt.is_int, GoInt.in_range.
  repeat split; try (vm_compute; congruence).
Qed.

(** C1 (amended).  When neither the subtraction nor
    [int32(maxBlockHeightExcess + 1)] wraps around, that is when
    [BlockHeight - TipHeight < 2^31] and
    [-2^31 - 1 <= maxBlockHeightExcess <= 2^31 - 2], the confirmation is
    [Confirmed] when the stored hash is present; otherwise it is
    [UnableToVerify] exactly when [BlockHeight > TipHeight] and
    [BlockHeight - TipHeight <= maxBlockHeightExcess], and [Invalid] in
    every remaining case; in particular it is [Invalid] for
    [BlockHeight = TipHeight + maxBlockHeightExcess + 1] without a stored
    hash. *)
Theorem ToMerkleRootConfirmation_state
    (d : dto.DbMerkleRootConfirmation.t) (m : Z) :
  dto.DbMerkleRootConfirmation.BlockHeight d
    - dto.DbMerkleRootConfirmation.TipHeight d < 2 ^ 31 ->
  - 2 ^ 31 - 1 <= m <= 2 ^ 31 - 2 ->
  let valid := sql.NullString.Valid (dto.DbMerkleRootConfirmation.Hash d) in
  let bh := dto.DbMerkleRootConfirmation.BlockHeight d in
  let tip := dto.DbMerkleRootConfirmation.TipHeight d in
  let c := domains.MerkleRootConfirmation.Confirmation
             (dto.ToMerkleRootConfirmation d m) in
  (valid = true -> c = domains.Confirmed)
  /\ (valid = false ->
      (c = domains.UnableToVerify <-> bh > tip /\ bh - tip <= m))
  /\ (valid = false -> ~ (bh > tip /\ bh - tip <= m) -> c = domains.Invalid)
  /\ (valid = false -> bh = tip + m + 1 -> c = domains.Invalid)
  /\ c = Spec.confirmation d m.
Proof.
  intros Hd Hm valid bh tip c.
  assert (Hc : c = Spec.confirmation d m)
    by (apply ToMerkleRootConfirmation_refines; assumption).
  assert (Hspec : valid = false ->
            Spec.confirmation d m
            = if ((bh >? tip) && (bh - tip <=? m))%Z
              then domains.UnableToVerify else domains.Invalid).
  { intros Hv. unfold Spec.confirmation. fold valid bh tip. now rewrite Hv. }
  split; [|split; [|split; [|split]]].
  - intros Hv. now apply ToMerkleRootConfirmation_valid.
  - intros Hv. rewrite Hc, (Hspec Hv).
    destruct (Z.gtb_spec bh tip), (Z.leb_spec (bh - tip) m); cbn;
      split; intros; try reflexivity; try discriminate; lia.
  - intros Hv Hn. rewrite Hc, (Hspec Hv).
    destruct (Z.gtb_spec bh tip), (Z.leb_spec (bh - tip) m); cbn;
      try reflexivity; exfalso; apply Hn; lia.
  - intros Hv Hb. rewrite Hc, (Hspec Hv).
    destruct (Z.gtb_spec bh tip), (Z.leb_spec (bh - tip) m); cbn;
      try reflexivity; lia.
  - exact Hc.
Qed.

(** The subtraction wraps as well: with the default excess 6, height
    2147483647 and tip -1 are 2^31 apart, the int32 difference is -2^31 and
    the result is [UnableToVerify]. *)
Lemma ToMerkleRootConfirmation_sub_wraps :
  let d := {| dto.DbMerkleRootConfirmation.MerkleRoot := "";
              dto.DbMerkleRootConfirmation.BlockHeight := 2147483647;
              dto.DbMerkleRootConfirmation.Hash :=
                {| sql.NullString.String_ := ""; sql.NullString.Valid := false |};
              dto.DbMerkleRootConfirmation.TipHeight := -1 |} in
  Spec.confirmation d 6 = domains.Invalid
  /\ domains.MerkleRootConfirmation.Confirmation (dto.ToMerkleRootConfirmation d 6)
     = domains.UnableToVerify.
Proof. split; reflexivity. Qed.

(** The amended C1 at the default excess 6: tip 800000, queried heights
    800006 (still [UnableToVerify]) and 800007 ([Invalid]). *)
Lemma ToMerkleRootConfirmation_state_witness :
  let d h := {| dto.DbMerkleRootConfirmation.MerkleRoot := "";
                dto.DbMerkleRootConfirmation.BlockHeight := h;
                dto.DbMerkleRootConfirmation.Hash :=
                  {| sql.NullString.String_ := ""; sql.NullString.Valid := false |};
                dto.DbMerkleRootConfirmation.TipHeight := 800000 |} in
  domains.MerkleRootConfirmation.Confirmation (dto.ToMerkleRootConfirmation (d 800006) 6)
  = domains.UnableToVerify
  /\ domains.MerkleRootConfirmation.Confirmation (dto.ToMerkleRootConfirmation (d 800007) 6)
     = domains.Invalid.
Proof.
  intros d.
  assert (Hm : - 2 ^ 31 - 1 <= 6 <= 2 ^ 31 - 2) by (cbn; lia).
  split.
  - assert (Hd : 800006 - 800000 < 2 ^ 31) by (cbn; lia).
    destruct (ToMerkleRootConfirmation_state (d 800006) 6 Hd Hm)
      as (_ & Hu & _).
    apply Hu; [reflexivity | cbn; lia].
  - assert (Hd : 800007 - 800000 < 2 ^ 31) by (cbn; lia).
    destruct (ToMerkleRootConfirmation_state (d 800007) 6 Hd Hm)
      as (_ & _ & _ & Hi & _).
    apply Hi; reflexivity.
Defined.

(** ** Decimal text of big integers *)

Section BigIntFacts.

Import big.

Lemma scanSign_uint (d : Decimal.uint) :
  big.scanSign (NilZero.string_of_uint d) = (false, NilZero.string_of_uint d).
Proof. destruct d; reflexivity. Qed.

Lemma uint_of_string_of_uint (d : Decimal.uint) :
  exists d', NilZero.uint_of_string (NilZero.string_of_uint d) = Some d'
             /\ Z.of_uint d' = Z.of_uint d.
Proof.
  destruct d as [|d|d|d|d|d|d|d|d|d|d].
  1: exists Decimal.zero; now split.
  all: eexists; split; [apply NilZero.usu; discriminate | reflexivity].
Qed.

Lemma SetString_uint (d : Decimal.uint) :
  big.SetString (NilZero.string_of_uint d) = (Some (Z.of_uint d), true).
Proof.
  unfold big.SetString. rewrite scanSign_uint.
  destruct (uint_of_string_of_uint d) as (d' & -> & ->). reflexivity.
Qed.

(** Printing an integer and parsing the text gives the integer back, for
    every value, negative ones included. *)
Lemma SetString_Int_String (v : Z) :
  big.SetString (big.Int_String (Some v)) = (Some v, true).
Proof.
  unfold big.Int_String. pose proof (DecimalZ.of_to v) as Hv.
  destruct (Z.to_int v) as [d|d]; cbn [NilZero.string_of_int Z.of_int] in *.
  - rewrite SetString_uint. now rewrite Hv.
  - unfold big.SetString. cbn [big.scanSign].
    destruct (uint_of_string_of_uint d) as (d' & -> & ->). now rewrite Hv.
Qed.

(** The text of an integer or of the nil pointer is never empty. *)
Lemma Int_String_nonempty (x : big.Int) :
  String.eqb (big.Int_String x) "" = false.
Proof.
  destruct x as [v|]; [|reflexivity].
  unfold big.Int_String. destruct (Z.to_int v) as [d|d]; destruct d; reflexivity.
Qed.

(** The text of the nil pointer does not parse: a nil work value does not
    survive the round trip. *)
Lemma SetString_nil_text : big.SetString (big.Int_String None) = (None, false).
Proof. reflexivity. Qed.

Lemma string_of_uint_digits (d : Decimal.uint) :
  all_digits (NilEmpty.string_of_uint d) = true.
Proof.
  unfold all_digits. induction d; cbn [NilEmpty.string_of_uint list_ascii_of_string forallb];
    [reflexivity | rewrite IHd; reflexivity ..].
Qed.

(** The text of a non-negative integer consists of decimal digits only. *)
Lemma Int_String_digits (v : Z) :
  0 <= v -> all_digits (big.Int_String (Some v)) = true.
Proof.
  intros Hv. unfold big.Int_String.
  destruct v as [|p|p]; [reflexivity| |lia].
  cbn [Z.to_int NilZero.string_of_int]. unfold NilZero.string_of_uint.
  pose proof (string_of_uint_digits (Pos.to_uint p)) as Hd.
  destruct (Pos.to_uint p); [reflexivity | exact Hd ..].
Qed.

Lemma uint_of_string_digits (s : string) :
  is_Some (NilEmpty.uint_of_string s) <-> all_digits s = true.
Proof.
  unfold all_digits. induction s as [|a s IH].
  - cbn. split; [reflexivity | intros _; eexists; reflexivity].
  - cbn [NilEmpty.uint_of_string list_ascii_of_string forallb].
    rewrite andb_true_iff, <- IH. clear IH.
    destruct (NilEmpty.uint_of_string s) as [d|].
    + split.
      * intros [d' Hd']. split; [|eexists; reflexivity].
        apply uint_of_char_spec in Hd'.
        destruct Hd' as [[-> _]|[[-> _]|[[-> _]|[[-> _]|[[-> _]|[[-> _]|
                        [[-> _]|[[-> _]|[[-> _]|[-> _]]]]]]]]]]; reflexivity.
      * intros [Ha _]. unfold is_digit in Ha.
        destruct a as [[] [] [] [] [] [] [] []]; try discriminate Ha;
          eexists; reflexivity.
    + split.
      * intros [d' Hd']. destruct a as [[] [] [] [] [] [] [] []]; discriminate Hd'.
      * intros [_ [d' Hd']]. discriminate Hd'.
Qed.

(** [SetString] in base 10 succeeds exactly on an optional sign followed by
    one or more decimal digits. *)
Lemma SetString_ok_iff (s : string) :
  snd (big.SetString s) = true
  <-> snd (big.scanSign s) <> "" /\ all_digits (snd (big.scanSign s)) = true.
Proof.
  unfold big.SetString. destruct (big.scanSign s) as [neg r]. cbn [snd].
  rewrite <- uint_of_string_digits. unfold NilZero.uint_of_string.
  destruct r as [|a r].
  - cbn. split; [discriminate | intros [Hn _]; now elim Hn].
  - destruct (NilEmpty.uint_of_string (String a r)) as [d|]; cbn.
    + split; [intros _; split; [discriminate | eexists; reflexivity] | reflexivity].
    + split; [discriminate | intros [_ [d Hd]]; discriminate Hd].
Qed.

(** [SetString] on some texts. *)
Example SetString_samples :
  SetString "+007" = (Some 7, true)
  /\ SetString "-0" = (Some 0, true)
  /\ SetString "-15" = (Some (-15), true)
  /\ SetString "" = (None, false)
  /\ SetString "-" = (None, false)
  /\ SetString "1_0" = (None, false)
  /\ SetString "0x10" = (None, false)
  /\ SetString " 1" = (None, false)
  /\ SetString "<nil>" = (None, false).
Proof. repeat split; reflexivity. Qed.

(** A failed [SetString] gives the nil pointer. *)
Lemma SetString_fail (s : string) :
  snd (big.SetString s) = false -> big.SetString s = (None, false).
Proof.
  unfold big.SetString. destruct (big.scanSign s) as [neg r].
  destruct (NilZero.uint_of_string r); [discriminate | reflexivity].
Qed.

End BigIntFacts.

(** ** Block headers: from and to the database row *)

Section BlockHeaderConversion.

Context `{imports.API}.

Import dto.

Implicit Types (dbh : DbBlockHeader.t) (bh : domains.BlockHeader.t).

(** What the call leaves in the receiver: an empty [CumulatedWork] column
    has become ["0"], nothing else changes. *)
Lemma ToBlockHeader_receiver dbh :
  fst (ToBlockHeader dbh)
  = if String.eqb (DbBlockHeader.CumulatedWork dbh) ""
    then DbBlockHeader.set_CumulatedWork dbh "0"
    else dbh.
Proof.
  unfold ToBlockHeader.
  destruct (String.eqb (DbBlockHeader.CumulatedWork dbh) "");
    repeat match goal with
           | |- context [imports.NewHashFromStr ?s] =>
               destruct (imports.NewHashFromStr s)
           end; reflexivity.
Qed.

(** The header returned when the three hash pointers are non-nil; the
    errors that come with them play no part. *)
Lemma ToBlockHeader_returns dbh (hash merkleTree prevBlock : imports.Hash) :
  fst (imports.NewHashFromStr (DbBlockHeader.Hash dbh)) = Some hash ->
  fst (imports.NewHashFromStr (DbBlockHeader.MerkleRoot dbh)) = Some merkleTree ->
  fst (imports.NewHashFromStr (DbBlockHeader.PreviousBlock dbh)) = Some prevBlock ->
  snd (ToBlockHeader dbh)
  = Go.Returns
      {| domains.BlockHeader.Height := DbBlockHeader.Height dbh;
         domains.BlockHeader.Hash := hash;
         domains.BlockHeader.Version := DbBlockHeader.Version dbh;
         domains.BlockHeader.MerkleRoot := merkleTree;
         domains.BlockHeader.Timestamp := DbBlockHeader.Timestamp dbh;
         domains.BlockHeader.Bits := DbBlockHeader.Bits dbh;
         domains.BlockHeader.Nonce := DbBlockHeader.Nonce dbh;
         domains.BlockHeader.Chainwork :=
           work_or_zero (DbBlockHeader.Chainwork dbh);
         domains.BlockHeader.CumulatedWork :=
           work_or_zero (if String.eqb (DbBlockHeader.CumulatedWork dbh) ""
                         then "0" else DbBlockHeader.CumulatedWork dbh);
         domains.BlockHeader.State := DbBlockHeader.State dbh;
         domains.BlockHeader.PreviousBlock := prevBlock |}.
Proof.
  unfold ToBlockHeader, work_or_zero. intros Hh Hm Hp.
  destruct (String.eqb (DbBlockHeader.CumulatedWork dbh) "");
    cbn [DbBlockHeader.set_CumulatedWork DbBlockHeader.Hash
         DbBlockHeader.MerkleRoot DbBlockHeader.PreviousBlock];
    destruct (imports.NewHashFromStr (DbBlockHeader.Hash dbh)) as [ph eh];
    destruct (imports.NewHashFromStr (DbBlockHeader.MerkleRoot dbh)) as [pm em];
    destruct (imports.NewHashFromStr (DbBlockHeader.PreviousBlock dbh)) as [pp ep];
    cbn [fst] in Hh, Hm, Hp; subst ph pm pp; reflexivity.
Qed.

(** The call panics exactly when one of the three pointers is nil. *)
Lemma ToBlockHeader_panics_iff dbh :
  snd (ToBlockHeader dbh) = Go.Panics
  <-> fst (imports.NewHashFromStr (DbBlockHeader.Hash dbh)) = None
      \/ fst (imports.NewHashFromStr (DbBlockHeader.MerkleRoot dbh)) = None
      \/ fst (imports.NewHashFromStr (DbBlockHeader.PreviousBlock dbh)) = None.
Proof.
  unfold ToBlockHeader.
  destruct (String.eqb (DbBlockHeader.CumulatedWork dbh) "");
    cbn [DbBlockHeader.set_CumulatedWork DbBlockHeader.Hash
         DbBlockHeader.MerkleRoot DbBlockHeader.PreviousBlock];
    destruct (imports.NewHashFromStr (DbBlockHeader.Hash dbh)) as [ph eh];
    destruct (imports.NewHashFromStr (DbBlockHeader.MerkleRoot dbh)) as [pm em];
    destruct (imports.NewHashFromStr (DbBlockHeader.PreviousBlock dbh)) as [pp ep];
    destruct ph, pm, pp; cbn; split; intros Hx;
    try discriminate Hx; try reflexivity; auto;
    destruct Hx as [Hx|[Hx|Hx]]; discriminate Hx.
Qed.

Lemma ToBlockHeader_returns_iff dbh :
  (exists bh, snd (ToBlockHeader dbh) = Go.Returns bh) <-> hashes_parse dbh.
Proof.
  unfold hashes_parse. split.
  - intros [bh Hbh].
    destruct (fst (imports.NewHashFromStr (DbBlockHeader.Hash dbh))) eqn:Eh;
    destruct (fst (imports.NewHashFromStr (DbBlockHeader.MerkleRoot dbh))) eqn:Em;
    destruct (fst (imports.NewHashFromStr (DbBlockHeader.PreviousBlock dbh))) eqn:Ep;
      try (repeat split; eexists; reflexivity);
      exfalso;
      assert (Hp : snd (ToBlockHeader dbh) = Go.Panics)
        by (apply ToBlockHeader_panics_iff; auto);
      rewrite Hp in Hbh; discriminate Hbh.
  - intros ([h Hh] & [m Hm] & [p Hp]). eexists.
    apply (ToBlockHeader_returns dbh h m p); assumption.
Qed.

Lemma hashes_parse_dec dbh :
  hashes_parse dbh
  \/ (fst (imports.NewHashFromStr (DbBlockHeader.Hash dbh)) = None
      \/ fst (imports.NewHashFromStr (DbBlockHeader.MerkleRoot dbh)) = None
      \/ fst (imports.NewHashFromStr (DbBlockHeader.PreviousBlock dbh)) = None).
Proof.
  unfold hashes_parse.
  destruct (fst (imports.NewHashFromStr (DbBlockHeader.Hash dbh)));
  destruct (fst (imports.NewHashFromStr (DbBlockHeader.MerkleRoot dbh)));
  destruct (fst (imports.NewHashFromStr (DbBlockHeader.PreviousBlock dbh)));
    auto; left; repeat split; eexists; reflexivity.
Qed.

(** The work fields of a returned header. *)
Lemma ToBlockHeader_work_fields dbh bh :
  snd (ToBlockHeader dbh) = Go.Returns bh ->
  domains.BlockHeader.Chainwork bh = work_or_zero (DbBlockHeader.Chainwork dbh)
  /\ domains.BlockHeader.CumulatedWork bh
     = work_or_zero (if String.eqb (DbBlockHeader.CumulatedWork dbh) ""
                     then "0" else DbBlockHeader.CumulatedWork dbh).
Proof.
  intros Hr.
  assert (Hp : hashes_parse dbh) by (apply ToBlockHeader_returns_iff; eauto).
  destruct Hp as ([h Hh] & [m Hm] & [p Hp]).
  rewrite (ToBlockHeader_returns dbh h m p Hh Hm Hp) in Hr.
  injection Hr as <-. now split.
Qed.

Lemma work_or_zero_fail (column : string) :
  snd (big.SetString column) = false -> work_or_zero column = big.NewInt 0.
Proof.
  intros Hf. unfold work_or_zero. now rewrite (SetString_fail column Hf).
Qed.

Lemma work_or_zero_normalized (column : string) :
  column = "" \/ snd (big.SetString column) = false ->
  work_or_zero (if String.eqb column "" then "0" else column) = big.NewInt 0.
Proof.
  intros [->|Hf]; [reflexivity|].
  destruct (String.eqb column ""); [reflexivity | now apply work_or_zero_fail].
Qed.

(** A row and the row with its work column replaced lead to the same
    outcome as soon as the two columns give the same work value. *)
Lemma ToBlockHeader_same_outcome dbh dbh' :
  DbBlockHeader.Height dbh' = DbBlockHeader.Height dbh ->
  DbBlockHeader.Hash dbh' = DbBlockHeader.Hash dbh ->
  DbBlockHeader.Version dbh' = DbBlockHeader.Version dbh ->
  DbBlockHeader.MerkleRoot dbh' = DbBlockHeader.MerkleRoot dbh ->
  DbBlockHeader.Timestamp dbh' = DbBlockHeader.Timestamp dbh ->
  DbBlockHeader.Bits dbh' = DbBlockHeader.Bits dbh ->
  DbBlockHeader.Nonce dbh' = DbBlockHeader.Nonce dbh ->
  DbBlockHeader.State dbh' = DbBlockHeader.State dbh ->
  DbBlockHeader.PreviousBlock dbh' = DbBlockHeader.PreviousBlock dbh ->
  work_or_zero (DbBlockHeader.Chainwork dbh')
  = work_or_zero (DbBlockHeader.Chainwork dbh) ->
  work_or_zero (if String.eqb (DbBlockHeader.CumulatedWork dbh') ""
                then "0" else DbBlockHeader.CumulatedWork dbh')
  = work_or_zero (if String.eqb (DbBlockHeader.CumulatedWork dbh) ""
                  then "0" else DbBlockHeader.CumulatedWork dbh) ->
  snd (ToBlockHeader dbh') = snd (ToBlockHeader dbh).
Proof.
  intros E1 E2 E3 E4 E5 E6 E7 E8 E9 Ew Ec.
  destruct (hashes_parse_dec dbh) as [([h Hh] & [m Hm] & [p Hp])|Hnone].
  - rewrite (ToBlockHeader_returns dbh h m p Hh Hm Hp).
    rewrite (ToBlockHeader_returns dbh' h m p) by congruence.
    now rewrite E1, E3, E5, E6, E7, E8, Ew, Ec.
  - assert (Hp : snd (ToBlockHeader dbh) = Go.Panics)
      by now apply ToBlockHeader_panics_iff.
    rewrite Hp. apply ToBlockHeader_panics_iff. now rewrite E2, E4, E9.
Qed.

(** Running the conversion on the record it left behind gives the same
    outcome and leaves the record as it is: sharing a record between several
    pointers does not change any result. *)
Lemma ToBlockHeader_again dbh :
  snd (ToBlockHeader (fst (ToBlockHeader dbh))) = snd (ToBlockHeader dbh)
  /\ fst (ToBlockHeader (fst (ToBlockHeader dbh))) = fst (ToBlockHeader dbh).
Proof.
  rewrite !ToBlockHeader_receiver.
  destruct (String.eqb (DbBlockHeader.CumulatedWork dbh) "") eqn:E.
  - split; [|reflexivity].
    apply ToBlockHeader_same_outcome; try reflexivity.
    cbn. now rewrite E.
  - rewrite E. now split.
Qed.

(** C2.  For every block header whose [Chainwork] and [CumulatedWork] are
    non-negative big integers (non-nil pointers) and whose three hashes
    print to strings that [NewHashFromStr] parses back to them,
    [ToBlockHeader (ToDbBlockHeader bh)] returns [bh], field by field; the
    two work values are stored as texts of decimal digits, and
    [SetString(_, 10)] parses each text back to the same number.  The method
    [HeaderState.String], declared outside the embedded files, is taken to
    give the underlying string of the state. *)
Theorem ToBlockHeader_ToDbBlockHeader bh (chainwork cumulatedWork : Z) :
  domains.BlockHeader.Chainwork bh = Some chainwork ->
  0 <= chainwork ->
  domains.BlockHeader.CumulatedWork bh = Some cumulatedWork ->
  0 <= cumulatedWork ->
  fst (imports.NewHashFromStr (imports.Hash_String (domains.BlockHeader.Hash bh)))
  = Some (domains.BlockHeader.Hash bh) ->
  fst (imports.NewHashFromStr
         (imports.Hash_String (domains.BlockHeader.MerkleRoot bh)))
  = Some (domains.BlockHeader.MerkleRoot bh) ->
  fst (imports.NewHashFromStr
         (imports.Hash_String (domains.BlockHeader.PreviousBlock bh)))
  = Some (domains.BlockHeader.PreviousBlock bh) ->
  imports.HeaderState_String (domains.BlockHeader.State bh)
  = domains.BlockHeader.State bh ->
  let row := ToDbBlockHeader bh in
  snd (ToBlockHeader row) = Go.Returns bh
  /\ fst (ToBlockHeader row) = row
  /\ big.all_digits (DbBlockHeader.Chainwork row) = true
  /\ big.all_digits (DbBlockHeader.CumulatedWork row) = true
  /\ big.SetString (DbBlockHeader.Chainwork row) = (Some chainwork, true)
  /\ big.SetString (DbBlockHeader.CumulatedWork row) = (Some cumulatedWork, true).
Proof.
  intros Hw Hw0 Hc Hc0 Hh Hm Hp Hs row.
  assert (Ew : DbBlockHeader.Chainwork row = big.Int_String (Some chainwork))
    by (unfold row; cbn; now rewrite Hw).
  assert (Ec : DbBlockHeader.CumulatedWork row = big.Int_String (Some cumulatedWork))
    by (unfold row; cbn; now rewrite Hc).
  assert (En : String.eqb (DbBlockHeader.CumulatedWork row) "" = false)
    by (rewrite Ec; apply Int_String_nonempty).
  split; [|split; [|split; [|split; [|split]]]].
  - rewrite (ToBlockHeader_returns row _ _ _ Hh Hm Hp).
    rewrite En, Ew, Ec. unfold work_or_zero. rewrite !SetString_Int_String.
    unfold row. cbn. rewrite Hs, <- Hw, <- Hc. now destruct bh.
  - rewrite ToBlockHeader_receiver. now rewrite En.
  - rewrite Ew. now apply Int_String_digits.
  - rewrite Ec. now apply Int_String_digits.
  - rewrite Ew. apply SetString_Int_String.
  - rewrite Ec. apply SetString_Int_String.
Qed.

(** C6.  [ToBlockHeader] never looks at the errors of [NewHashFromStr] and
    dereferences the three pointers: it returns a header exactly when the
    three strings give a hash, whatever the errors are, and it panics with a
    nil dereference exactly when one of the pointers is nil; when
    [NewHashFromStr] gives a nil pointer with every error, a row with an
    unparseable hash, Merkle root or previous block makes it panic. *)
Theorem ToBlockHeader_nil_dereference dbh :
  ((exists bh, snd (ToBlockHeader dbh) = Go.Returns bh) <-> hashes_parse dbh)
  /\ (snd (ToBlockHeader dbh) = Go.Panics <-> ~ hashes_parse dbh)
  /\ (snd (ToBlockHeader dbh) = Go.Panics
      <-> fst (imports.NewHashFromStr (DbBlockHeader.Hash dbh)) = None
          \/ fst (imports.NewHashFromStr (DbBlockHeader.MerkleRoot dbh)) = None
          \/ fst (imports.NewHashFromStr (DbBlockHeader.PreviousBlock dbh)) = None)
  /\ (forall h m p (e1 e2 e3 : Go.error),
        imports.NewHashFromStr (DbBlockHeader.Hash dbh) = (Some h, e1) ->
        imports.NewHashFromStr (DbBlockHeader.MerkleRoot dbh) = (Some m, e2) ->
        imports.NewHashFromStr (DbBlockHeader.PreviousBlock dbh) = (Some p, e3) ->
        exists bh, snd (ToBlockHeader dbh) = Go.Returns bh
                   /\ domains.BlockHeader.Hash bh = h
                   /\ domains.BlockHeader.MerkleRoot bh = m
                   /\ domains.BlockHeader.PreviousBlock bh = p)
  /\ ((forall s, snd (imports.NewHashFromStr s) <> None ->
                 fst (imports.NewHashFromStr s) = None) ->
      snd (imports.NewHashFromStr (DbBlockHeader.Hash dbh)) <> None
      \/ snd (imports.NewHashFromStr (DbBlockHeader.MerkleRoot dbh)) <> None
      \/ snd (imports.NewHashFromStr (DbBlockHeader.PreviousBlock dbh)) <> None ->
      snd (ToBlockHeader dbh) = Go.Panics).
Proof.
  split; [|split; [|split; [|split]]].
  - apply ToBlockHeader_returns_iff.
  - rewrite ToBlockHeader_panics_iff. split.
    + intros Hn (Hh & Hm & Hp).
      destruct Hn as [Hn|[Hn|Hn]]; rewrite Hn in *;
        [destruct Hh as [? Hx] | destruct Hm as [? Hx] | destruct Hp as [? Hx]];
        discriminate Hx.
    + intros Hn. destruct (hashes_parse_dec dbh) as [Hp|Hp];
        [now elim Hn | exact Hp].
  - apply ToBlockHeader_panics_iff.
  - intros h m p e1 e2 e3 Hh Hm Hp. eexists. split.
    + apply (ToBlockHeader_returns dbh h m p);
        [now rewrite Hh | now rewrite Hm | now rewrite Hp].
    + now cbn.
  - intros Hnil Herr. apply ToBlockHeader_panics_iff.
    destruct Herr as [He|[He|He]]; apply Hnil in He; auto.
Qed.

(** C7.  When the [CumulatedWork] column is empty or does not parse in base
    10, or the [Chainwork] column does not parse, [ToBlockHeader] goes on
    with the number 0 for that field: the outcome is the one of the row with
    ["0"] in the column, every returned header has 0 in the field, and a
    header is returned as soon as the three hashes parse; no error is
    reported, the signature has none. *)
Theorem ToBlockHeader_unparseable_work dbh :
  (DbBlockHeader.CumulatedWork dbh = ""
   \/ snd (big.SetString (DbBlockHeader.CumulatedWork dbh)) = false ->
   snd (ToBlockHeader dbh)
   = snd (ToBlockHeader (DbBlockHeader.set_CumulatedWork dbh "0"))
   /\ (forall bh, snd (ToBlockHeader dbh) = Go.Returns bh ->
                  domains.BlockHeader.CumulatedWork bh = big.NewInt 0)
   /\ (hashes_parse dbh ->
       exists bh, snd (ToBlockHeader dbh) = Go.Returns bh
                  /\ domains.BlockHeader.CumulatedWork bh = big.NewInt 0))
  /\ (snd (big.SetString (DbBlockHeader.Chainwork dbh)) = false ->
      snd (ToBlockHeader dbh)
      = snd (ToBlockHeader (DbBlockHeader.with_Chainwork dbh "0"))
      /\ (forall bh, snd (ToBlockHeader dbh) = Go.Returns bh ->
                     domains.BlockHeader.Chainwork bh = big.NewInt 0)
      /\ (hashes_parse dbh ->
          exists bh, snd (ToBlockHeader dbh) = Go.Returns bh
                     /\ domains.BlockHeader.Chainwork bh = big.NewInt 0)).
Proof.
  split.
  - intros Hbad.
    pose proof (work_or_zero_normalized _ Hbad) as Hz.
    assert (Hall : forall bh, snd (ToBlockHeader dbh) = Go.Returns bh ->
                     domains.BlockHeader.CumulatedWork bh = big.NewInt 0).
    { intros bh Hr. destruct (ToBlockHeader_work_fields dbh bh Hr) as [_ ->].
      exact Hz. }
    split; [|split].
    + symmetry. apply ToBlockHeader_same_outcome; try reflexivity.
      cbn [DbBlockHeader.set_CumulatedWork DbBlockHeader.CumulatedWork].
      now rewrite Hz.
    + exact Hall.
    + intros Hp. apply ToBlockHeader_returns_iff in Hp. destruct Hp as [bh Hr].
      exists bh. split; [exact Hr | now apply Hall].
  - intros Hbad.
    pose proof (work_or_zero_fail _ Hbad) as Hz.
    assert (Hall : forall bh, snd (ToBlockHeader dbh) = Go.Returns bh ->
                     domains.BlockHeader.Chainwork bh = big.NewInt 0).
    { intros bh Hr. destruct (ToBlockHeader_work_fields dbh bh Hr) as [-> _].
      exact Hz. }
    split; [|split].
    + symmetry. apply ToBlockHeader_same_outcome; try reflexivity.
      cbn [DbBlockHeader.with_Chainwork DbBlockHeader.Chainwork].
      now rewrite Hz.
    + exact Hall.
    + intros Hp. apply ToBlockHeader_returns_iff in Hp. destruct Hp as [bh Hr].
      exists bh. split; [exact Hr | now apply Hall].
Qed.

End BlockHeaderConversion.

(** *** The conversions on the reference implementation *)

Lemma reference_NewHashFromStr_nil_on_error (s : string) :
  snd (reference.NewHashFromStr s) <> None ->
  fst (reference.NewHashFromStr s) = None.
Proof.
  unfold reference.NewHashFromStr.
  destruct (reference.MaxHashStringSize <? String.length s)%nat; [reflexivity|].
  destruct (reference.hex_decode _); [intros Hn; now elim Hn | reflexivity].
Qed.

(** C2 on a sample header: work 4295032833 and cumulated work 2^128. *)
Lemma ToBlockHeader_ToDbBlockHeader_witness :
  snd (@dto.ToBlockHeader reference.API (dto.ToDbBlockHeader reference.sample_header))
  = Go.Returns reference.sample_header
  /\ big.SetString
       (dto.DbBlockHeader.CumulatedWork (dto.ToDbBlockHeader reference.sample_header))
     = (Some (2 ^ 128), true).
Proof.
  assert (H0 : 0 <= 4295032833) by lia.
  assert (H1 : 0 <= 340282366920938463463374607431768211456) by lia.
  destruct (@ToBlockHeader_ToDbBlockHeader reference.API reference.sample_header
              4295032833 340282366920938463463374607431768211456
              eq_refl H0 eq_refl H1 eq_refl eq_refl eq_refl eq_refl)
    as (Hr & _ & _ & _ & _ & Hc).
  split; [exact Hr | exact Hc].
Defined.

(** C6 on the reference implementation: the string ["not a hash"] is
    rejected with an error and a nil pointer, and the row that carries it as
    its hash makes [ToBlockHeader] panic. *)
Lemma ToBlockHeader_nil_dereference_witness :
  snd (reference.NewHashFromStr "not a hash") <> None
  /\ snd (@dto.ToBlockHeader reference.API reference.broken_row) = Go.Panics.
Proof.
  assert (He : snd (reference.NewHashFromStr "not a hash") <> None)
    by (vm_compute; discriminate).
  split; [exact He|].
  destruct (@ToBlockHeader_nil_dereference reference.API reference.broken_row)
    as (_ & _ & _ & _ & Hp).
  apply Hp; [exact reference_NewHashFromStr_nil_on_error | left; exact He].
Defined.

(** C7 on a row with an empty [CumulatedWork] and the [Chainwork] text
    ["0x10"]: both fields of the returned header are 0. *)
Lemma ToBlockHeader_unparseable_work_witness :
  exists bh,
    snd (@dto.ToBlockHeader reference.API reference.sample_row) = Go.Returns bh
    /\ domains.BlockHeader.CumulatedWork bh = Some 0
    /\ domains.BlockHeader.Chainwork bh = Some 0.
Proof.
  destruct (@ToBlockHeader_unparseable_work reference.API reference.sample_row)
    as [Hc Hw].
  destruct (Hc (or_introl eq_refl)) as (_ & Hc0 & Hcr).
  destruct (Hw eq_refl) as (_ & Hw0 & _).
  assert (Hp : @dto.hashes_parse reference.API reference.sample_row)
    by (repeat split; eexists; vm_compute; reflexivity).
  destruct (Hcr Hp) as (bh & Hr & Hz).
  exists bh. split; [exact Hr | split; [exact Hz | exact (Hw0 bh Hr)]].
Defined.

(** ** Slices of rows *)

Section SliceConversion.

Context `{imports.API}.

Import dto.

Implicit Types (st : store) (p : ptr) (ps : list ptr)
  (bhs : list domains.BlockHeader.t).

Lemma touched_refl st : touched st st.
Proof. intros a. now left. Qed.

(** A store in which records have been converted gives the same outcomes. *)
Lemma ToBlockHeader_of_touched st st' p :
  touched st st' -> ToBlockHeader_of st' p = ToBlockHeader_of st p.
Proof.
  intros Ht. unfold ToBlockHeader_of, deref. destruct p as [a|]; [|reflexivity].
  destruct (Ht a) as [->|(dbh & -> & ->)]; [reflexivity|].
  apply ToBlockHeader_again.
Qed.

(** One call through a pointer: the outcome is the one read off the store,
    and the store stays a converted version of the first one. *)
Lemma ToBlockHeader_at_spec st0 st p :
  touched st0 st ->
  snd (ToBlockHeader_at p st) = ToBlockHeader_of st0 p
  /\ touched st0 (fst (ToBlockHeader_at p st)).
Proof.
  intros Ht. rewrite <- (ToBlockHeader_of_touched st0 st p Ht).
  unfold ToBlockHeader_at, ToBlockHeader_of, deref.
  destruct p as [a|]; [|now split].
  destruct (st !! a) as [dbh|] eqn:Ea; [|now split].
  destruct (ToBlockHeader dbh) as [dbh' r] eqn:Er. cbn [fst snd].
  split; [reflexivity|].
  assert (Hd : dbh' = fst (ToBlockHeader dbh)) by now rewrite Er.
  unfold touched, store in *.
  intros b. destruct (decide (a = b)) as [<-|Hne].
  - rewrite lookup_insert_eq. right.
    destruct (Ht a) as [E|(dbh0 & E0 & E)]; rewrite Ea in E.
    + exists dbh. split; [now symmetry | now rewrite Hd].
    + exists dbh0. split; [exact E0|]. injection E as ->.
      rewrite Hd. f_equal. apply ToBlockHeader_again.
  - rewrite lookup_insert_ne by exact Hne. apply Ht.
Qed.

(** The loop when every conversion returns. *)
Lemma ConvertToBlockHeader_loop_returns st0 ps bhs :
  Forall2 (fun p bh => ToBlockHeader_of st0 p = Go.Returns bh) ps bhs ->
  forall acc st,
    touched st0 st ->
    exists st',
      ConvertToBlockHeader_loop ps acc st
      = (st', Go.Returns (fold_left Go.append bhs acc))
      /\ touched st0 st'.
Proof.
  induction 1 as [|p bh ps bhs Hp _ IH]; intros acc st Ht.
  - exists st. now split.
  - cbn [ConvertToBlockHeader_loop fold_left].
    destruct (ToBlockHeader_at_spec st0 st p Ht) as [Hs Ht'].
    destruct (ToBlockHeader_at p st) as [st1 r]. cbn [fst snd] in Hs, Ht'.
    rewrite Hs, Hp. now apply IH.
Qed.

(** The loop when some conversion panics. *)
Lemma ConvertToBlockHeader_loop_panics st0 ps :
  Exists (fun p => ToBlockHeader_of st0 p = Go.Panics) ps ->
  forall acc st,
    touched st0 st -> snd (ConvertToBlockHeader_loop ps acc st) = Go.Panics.
Proof.
  induction ps as [|p ps IH]; intros Hex acc st Ht.
  - inversion Hex.
  - cbn [ConvertToBlockHeader_loop].
    destruct (ToBlockHeader_at_spec st0 st p Ht) as [Hs Ht'].
    destruct (ToBlockHeader_at p st) as [st1 r]. cbn [fst snd] in Hs, Ht'.
    destruct r as [bh|]; [|reflexivity].
    apply IH; [|exact Ht'].
    inversion Hex as [? ? Hhd|? ? Htl]; subst; [|exact Htl].
    rewrite <- Hs in Hhd. discriminate Hhd.
Qed.

Lemma fold_left_append_elems {A} (l : list A) (acc : Go.slice A) :
  Go.elems (fold_left Go.append l acc) = (Go.elems acc ++ l)%list.
Proof.
  revert acc. induction l as [|x l IH]; intros acc; cbn [fold_left].
  - now rewrite app_nil_r.
  - rewrite IH. unfold Go.append. cbn [Go.elems]. now rewrite <- app_assoc.
Qed.

Lemma fold_left_append_nonnil {A} (l : list A) (acc : Go.slice A) :
  Go.is_nil acc = false -> Go.is_nil (fold_left Go.append l acc) = false.
Proof.
  revert acc. induction l as [|x l IH]; intros acc Hacc; cbn [fold_left].
  - exact Hacc.
  - now apply IH.
Qed.

Lemma fold_left_append_nil {A} (l : list A) (acc : Go.slice A) :
  Go.is_nil (fold_left Go.append l acc) = true
  <-> Go.is_nil acc = true /\ l = [].
Proof.
  destruct l as [|x l]; cbn [fold_left].
  - tauto.
  - rewrite fold_left_append_nonnil by reflexivity.
    split; [discriminate | intros [_ Hx]; discriminate Hx].
Qed.

(** The loop over confirmations, from a non-nil accumulator. *)
Lemma ConvertToMerkleRootsConfirmations_loop_returns
    (ds : list DbMerkleRootConfirmation.t) (m : Z)
    (l : list domains.MerkleRootConfirmation.t) :
  ConvertToMerkleRootsConfirmations_loop (map Some ds) m (Go.mk_slice l)
  = Go.Returns
      (Go.mk_slice (l ++ map (fun d => ToMerkleRootConfirmation d m) ds)%list).
Proof.
  revert l. induction ds as [|d ds IH]; intros l; cbn.
  - now rewrite app_nil_r.
  - unfold Go.append. cbn [Go.elems]. rewrite IH. now rewrite <- app_assoc.
Qed.

Lemma ConvertToMerkleRootsConfirmations_loop_nonnil
    (rest : list (option DbMerkleRootConfirmation.t)) (m : Z)
    (l : list domains.MerkleRootConfirmation.t)
    (r : Go.slice domains.MerkleRootConfirmation.t) :
  ConvertToMerkleRootsConfirmations_loop rest m (Go.mk_slice l) = Go.Returns r ->
  Go.is_nil r = false.
Proof.
  revert l. induction rest as [|[d|] rest IH]; intros l; cbn.
  - now intros [= <-].
  - apply IH.
  - discriminate.
Qed.

Lemma ConvertToMerkleRootsConfirmations_loop_panics
    (rest : list (option DbMerkleRootConfirmation.t)) (m : Z)
    (acc : Go.slice domains.MerkleRootConfirmation.t) :
  ConvertToMerkleRootsConfirmations_loop rest m acc = Go.Panics
  <-> In None rest.
Proof.
  revert acc. induction rest as [|[d|] rest IH]; intros acc; cbn.
  - split; [discriminate | tauto].
  - rewrite IH. split; [auto | intros [Hx|Hx]; [discriminate Hx | exact Hx]].
  - split; auto.
Qed.

(** C8.  [ConvertToBlockHeader] returns the nil slice for the nil slice;
    for a non-nil slice it returns the results of [ToBlockHeader] on the
    records the pointers refer to, in the order of the slice and as many as
    there are pointers (so the nil slice again when there is none), and it
    panics when one of the conversions does; records shared between
    pointers do not change the results.  [ConvertToMerkleRootsConfirmations]
    never returns the nil slice: it returns the empty slice for the nil and
    for the empty slice, and in general the confirmations of the records in
    order, as many as there are records; it panics exactly on a nil
    pointer among the elements. *)
Theorem Convert_slices :
  (forall st, ConvertToBlockHeader Go.nil_slice st = (st, Go.Returns Go.nil_slice))
  /\ (forall ps st bhs,
        Forall2 (fun p bh => ToBlockHeader_of st p = Go.Returns bh) ps bhs ->
        exists r st',
          ConvertToBlockHeader (Go.mk_slice ps) st = (st', Go.Returns r)
          /\ Go.elems r = bhs
          /\ Go.len r = length ps
          /\ (Go.is_nil r = true <-> ps = [])
          /\ touched st st')
  /\ (forall ps st,
        Exists (fun p => ToBlockHeader_of st p = Go.Panics) ps ->
        snd (ConvertToBlockHeader (Go.mk_slice ps) st) = Go.Panics)
  /\ (forall s m r,
        ConvertToMerkleRootsConfirmations s m = Go.Returns r ->
        Go.is_nil r = false)
  /\ (forall m,
        ConvertToMerkleRootsConfirmations Go.nil_slice m
        = Go.Returns (Go.mk_slice [])
        /\ ConvertToMerkleRootsConfirmations (Go.mk_slice []) m
           = Go.Returns (Go.mk_slice []))
  /\ (forall s ds m,
        Go.elems s = map Some ds ->
        ConvertToMerkleRootsConfirmations s m
        = Go.Returns (Go.mk_slice (map (fun d => ToMerkleRootConfirmation d m) ds))
        /\ length (map (fun d => ToMerkleRootConfirmation d m) ds) = Go.len s)
  /\ (forall s m,
        ConvertToMerkleRootsConfirmations s m = Go.Panics
        <-> In None (Go.elems s)).
Proof.
  split; [|split; [|split; [|split; [|split; [|split]]]]].
  - reflexivity.
  - intros ps st bhs Hall.
    destruct (ConvertToBlockHeader_loop_returns st ps bhs Hall Go.nil_slice st
                (touched_refl st)) as (st' & Hloop & Ht).
    exists (fold_left Go.append bhs Go.nil_slice), st'.
    split; [exact Hloop|]. split; [|split; [|split]].
    + now rewrite fold_left_append_elems.
    + unfold Go.len. rewrite fold_left_append_elems. cbn [Go.elems app].
      symmetry. exact (Forall2_length _ _ _ Hall).
    + rewrite fold_left_append_nil. cbn [Go.is_nil].
      split.
      * intros [_ ->]. now inversion Hall.
      * intros ->. inversion Hall. now split.
    + exact Ht.
  - intros ps st Hex.
    exact (ConvertToBlockHeader_loop_panics st ps Hex Go.nil_slice st
             (touched_refl st)).
  - intros s m r. unfold ConvertToMerkleRootsConfirmations, Go.make0.
    apply ConvertToMerkleRootsConfirmations_loop_nonnil.
  - intros m. now split.
  - intros s ds m Hs. unfold ConvertToMerkleRootsConfirmations, Go.make0.
    rewrite Hs. split.
    + exact (ConvertToMerkleRootsConfirmations_loop_returns ds m []).
    + unfold Go.len. rewrite Hs. now rewrite !length_map.
  - intros s m. apply ConvertToMerkleRootsConfirmations_loop_panics.
Qed.

End SliceConversion.

(** C8 on the reference implementation: a slice whose two pointers refer to
    the same row (address 0, empty [CumulatedWork]) gives two headers, and
    two confirmation records give two confirmations. *)
Lemma Convert_slices_witness :
  let d1 := dto.DbMerkleRootConfirmation.mk "aa" 10 (sql.NullString.mk "h" true) 20 in
  let d2 := dto.DbMerkleRootConfirmation.mk "bb" 21 (sql.NullString.mk "" false) 20 in
  (exists r st',
      @dto.ConvertToBlockHeader reference.API
        (Go.mk_slice [Some 0%nat; Some 0%nat]) {[ 0%nat := reference.sample_row ]}
      = (st', Go.Returns r)
      /\ Go.len r = 2%nat)
  /\ dto.ConvertToMerkleRootsConfirmations (Go.mk_slice [Some d1; Some d2]) 6
     = Go.Returns
         (Go.mk_slice
            [dto.ToMerkleRootConfirmation d1 6; dto.ToMerkleRootConfirmation d2 6]).
Proof.
  intros d1 d2.
  destruct (@Convert_slices reference.API) as (_ & Hb & _ & _ & _ & Hm & _).
  split.
  - assert (Hall : Forall2
                     (fun p bh =>
                        @dto.ToBlockHeader_of reference.API
                          {[ 0%nat := reference.sample_row ]} p = Go.Returns bh)
                     [Some 0%nat; Some 0%nat]
                     (let bh := match snd (@dto.ToBlockHeader reference.API
                                             reference.sample_row) with
                                | Go.Returns bh => bh
                                | Go.Panics => reference.sample_header
                                end in [bh; bh]))
      by (repeat constructor).
    destruct (Hb _ _ _ Hall) as (r & st' & Hr & _ & Hlen & _).
    exists r, st'. split; [exact Hr | exact Hlen].
  - destruct (Hm (Go.mk_slice [Some d1; Some d2]) [d1; d2] 6 eq_refl) as [Hr _].
    exact Hr.
Defined.

(** ** Database bootstrap *)

Section DatabaseFacts.

Context {DB Logger W : Type}.

Import database.

Implicit Types (env : Env DB Logger W) (w : W) (tr : list (Call DB Logger)).

(** Running from a trace already recorded only prefixes that trace. *)
Lemma run_from_trace {A} env (p : Prog DB Logger A) w tr :
  run_from env p w tr
  = let '(r, w', tr') := run env p w in (r, w', (tr ++ tr')%list).
Proof.
  unfold run. revert w tr.
  induction p as [a|c k IH|]; intros w tr; cbn [run_from].
  - now rewrite app_nil_r.
  - destruct (env c w) as [x w1]. rewrite (IH x w1 (tr ++ [c])%list).
    rewrite (IH x w1 ([] ++ [c])%list).
    destruct (run_from env (k x) w1 []) as [[r w2] tr2].
    now rewrite <- app_assoc.
  - now rewrite app_nil_r.
Qed.

(** Sequencing: the second computation starts in the state the first one
    left, and the traces follow each other; a panic stops the run. *)
Lemma run_bind {A B} env (p : Prog DB Logger A) (f : A -> Prog DB Logger B) w :
  run env (bind p f) w
  = match run env p w with
    | (Go.Returns a, w1, tr1) =>
        let '(r, w2, tr2) := run env (f a) w1 in (r, w2, (tr1 ++ tr2)%list)
    | (Go.Panics, w1, tr1) => (Go.Panics, w1, tr1)
    end.
Proof.
  unfold run at 1 2. generalize (@nil (Call DB Logger)) as tr. revert w.
  induction p as [a|c k IH|]; intros w tr; cbn [bind run_from].
  - apply run_from_trace.
  - destruct (env c w) as [x w1]. apply IH.
  - reflexivity.
Qed.

Lemma NewDBAdapter_sqlite (cfg : config.DbConfig.t) :
  config.DbConfig.Type_ cfg = config.DBSqlite ->
  @NewDBAdapter DB Logger cfg = (Some SQLiteAdapter, None).
Proof. intros E. unfold NewDBAdapter. now rewrite E. Qed.

Lemma NewDBAdapter_other (cfg : config.DbConfig.t) :
  config.DbConfig.Type_ cfg <> config.DBSqlite ->
  @NewDBAdapter DB Logger cfg
  = (None, Some ("unsupported database type " ++ config.DbConfig.Type_ cfg)).
Proof.
  intros E. unfold NewDBAdapter.
  destruct (String.eqb_spec (config.DbConfig.Type_ cfg) config.DBSqlite);
    [now elim E | reflexivity].
Qed.

(** [Connect] and [DoMigrations] as runs: one call of the SQLite adapter
    for the sqlite type, the error of [NewDBAdapter] and no call
    otherwise.  Neither panics. *)
Lemma run_Connect env (cfg : config.DbConfig.t) w :
  run env (Connect cfg) w
  = if String.eqb (config.DbConfig.Type_ cfg) config.DBSqlite
    then let (x, w') := env (SQLiteAdapter_Connect cfg) w in
         (Go.Returns x, w', [SQLiteAdapter_Connect cfg])
    else (Go.Returns
            (None, Some ("unsupported database type " ++ config.DbConfig.Type_ cfg)),
          w, []).
Proof.
  unfold run, Connect, NewDBAdapter.
  destruct (String.eqb (config.DbConfig.Type_ cfg) config.DBSqlite);
    [|reflexivity].
  cbn. now destruct (env (SQLiteAdapter_Connect cfg) w).
Qed.

Lemma run_DoMigrations env (db : option DB) (cfg : config.DbConfig.t) w :
  run env (DoMigrations db cfg) w
  = if String.eqb (config.DbConfig.Type_ cfg) config.DBSqlite
    then let (x, w') := env (SQLiteAdapter_DoMigrations db cfg) w in
         (Go.Returns x, w', [SQLiteAdapter_DoMigrations db cfg])
    else (Go.Returns
            (Some ("unsupported database type " ++ config.DbConfig.Type_ cfg)),
          w, []).
Proof.
  unfold run, DoMigrations, NewDBAdapter.
  destruct (String.eqb (config.DbConfig.Type_ cfg) config.DBSqlite);
    [|reflexivity].
  cbn. now destruct (env (SQLiteAdapter_DoMigrations db cfg) w).
Qed.

Lemma Connect_no_ImportHeaders env (cfg : config.DbConfig.t) w :
  calls_ImportHeaders (run env (Connect cfg) w) = false.
Proof.
  rewrite run_Connect.
  destruct (String.eqb (config.DbConfig.Type_ cfg) config.DBSqlite);
    [|reflexivity].
  now destruct (env (SQLiteAdapter_Connect cfg) w).
Qed.

Lemma DoMigrations_no_ImportHeaders env (db : option DB)
    (cfg : config.DbConfig.t) w :
  calls_ImportHeaders (run env (DoMigrations db cfg) w) = false.
Proof.
  rewrite run_DoMigrations.
  destruct (String.eqb (config.DbConfig.Type_ cfg) config.DBSqlite);
    [|reflexivity].
  now destruct (env (SQLiteAdapter_DoMigrations db cfg) w).
Qed.

(** The run of [Init], step by step. *)
Lemma run_Init env (cfg : config.AppConfig.t) (log : Logger) w :
  run env (Init cfg log) w
  = match run env (Connect (config.AppConfig.DbConfig cfg)) w with
    | (Go.Returns (db, Some e), w1, tr1) => (Go.Returns (None, Some e), w1, tr1)
    | (Go.Returns (db, None), w1, tr1) =>
        match run env (DoMigrations db (config.AppConfig.DbConfig cfg)) w1 with
        | (Go.Returns (Some e), w2, tr2) =>
            (Go.Returns (None, Some e), w2, (tr1 ++ tr2)%list)
        | (Go.Returns None, w2, tr2) =>
            if config.DbConfig.PreparedDb (config.AppConfig.DbConfig cfg)
            then
              match env (ImportHeaders db cfg log) w2 with
              | (Some e, w3) =>
                  (Go.Returns (None, Some e), w3,
                   (tr1 ++ tr2 ++ [ImportHeaders db cfg log])%list)
              | (None, w3) =>
                  (Go.Returns (db, None), w3,
                   (tr1 ++ tr2 ++ [ImportHeaders db cfg log])%list)
              end
            else (Go.Returns (db, None), w2, (tr1 ++ tr2)%list)
        | (Go.Panics, w2, tr2) => (Go.Panics, w2, (tr1 ++ tr2)%list)
        end
    | (Go.Panics, w1, tr1) => (Go.Panics, w1, tr1)
    end.
Proof.
  unfold Init. rewrite run_bind.
  destruct (run env (Connect (config.AppConfig.DbConfig cfg)) w)
    as [[[[db [e|]]|] w1] tr1]; [| |reflexivity].
  - unfold run. cbn. now rewrite app_nil_r.
  - rewrite run_bind.
    destruct (run env (DoMigrations db (config.AppConfig.DbConfig cfg)) w1)
      as [[[[e|]|] w2] tr2]; [| |reflexivity].
    + unfold run. cbn. now rewrite app_nil_r.
    + destruct (config.DbConfig.PreparedDb (config.AppConfig.DbConfig cfg)).
      * unfold run, call. cbn.
        destruct (env (ImportHeaders db cfg log) w2) as [[e|] w3]; reflexivity.
      * unfold run. cbn. now rewrite app_nil_r.
Qed.

(** C4.  [NewDBAdapter] returns the SQLite adapter (and no error) exactly
    when [cfg.Type] is [config.DBSqlite], that is ["sqlite"]; for every
    other type it returns a nil adapter and the error
    "unsupported database type" followed by the type.  For those types
    [Connect] and [DoMigrations] fail with that error without calling any
    adapter.  The default configuration has the sqlite type. *)
Theorem NewDBAdapter_sqlite_only (cfg : config.DbConfig.t) :
  let unsupported :=
    Some ("unsupported database type " ++ config.DbConfig.Type_ cfg) in
  config.DBSqlite = "sqlite"
  /\ (fst (@NewDBAdapter DB Logger cfg) = Some SQLiteAdapter
      <-> config.DbConfig.Type_ cfg = config.DBSqlite)
  /\ (config.DbConfig.Type_ cfg = config.DBSqlite ->
      @NewDBAdapter DB Logger cfg = (Some SQLiteAdapter, None))
  /\ (config.DbConfig.Type_ cfg <> config.DBSqlite ->
      @NewDBAdapter DB Logger cfg = (None, unsupported))
  /\ (config.DbConfig.Type_ cfg <> config.DBSqlite ->
      forall env w (db : option DB),
        run env (Connect cfg) w = (Go.Returns (None, unsupported), w, [])
        /\ run env (DoMigrations db cfg) w = (Go.Returns unsupported, w, []))
  /\ config.DbConfig.Type_ (config.AppConfig.DbConfig config.GetDefaultAppConfig)
     = config.DBSqlite
  /\ @NewDBAdapter DB Logger (config.AppConfig.DbConfig config.GetDefaultAppConfig)
     = (Some SQLiteAdapter, None).
Proof.
  intros unsupported.
  split; [reflexivity|]. split; [|split; [|split; [|split; [|split]]]].
  - split.
    + intros Hs.
      destruct (String.eqb_spec (config.DbConfig.Type_ cfg) config.DBSqlite)
        as [E|E]; [exact E|].
      rewrite (NewDBAdapter_other cfg E) in Hs. discriminate Hs.
    + intros E. now rewrite (NewDBAdapter_sqlite cfg E).
  - apply NewDBAdapter_sqlite.
  - apply NewDBAdapter_other.
  - intros E env w db. rewrite run_Connect, run_DoMigrations.
    destruct (String.eqb_spec (config.DbConfig.Type_ cfg) config.DBSqlite);
      [now elim E | now split].
  - reflexivity.
  - reflexivity.
Qed.

(** C3.  In a run of [Init], [ImportHeaders] is called if and only if
    [cfg.DbConfig.PreparedDb] is true and [Connect] and then [DoMigrations]
    returned a nil error.  When [Connect], [DoMigrations] or
    [ImportHeaders] returns an error, [Init] returns the nil handle with
    that error; otherwise it returns the handle of [Connect] with a nil
    error.  The default configuration has [PreparedDb = false] and the file
    path ["./data/blockheaders.csv.gz"], so [Init] on it imports nothing. *)
Theorem Init_ImportHeaders env (cfg : config.AppConfig.t) (log : Logger) w :
  let dbcfg := config.AppConfig.DbConfig cfg in
  let connected db w1 tr1 :=
    run env (Connect dbcfg) w = (Go.Returns (db, None), w1, tr1) in
  let migrated db w1 w2 tr2 :=
    run env (DoMigrations db dbcfg) w1 = (Go.Returns None, w2, tr2) in
  (calls_ImportHeaders (run env (Init cfg log) w) = true
   <-> config.DbConfig.PreparedDb dbcfg = true
       /\ exists db w1 tr1 w2 tr2, connected db w1 tr1 /\ migrated db w1 w2 tr2)
  /\ (forall db e w1 tr1,
        run env (Connect dbcfg) w = (Go.Returns (db, Some e), w1, tr1) ->
        run env (Init cfg log) w = (Go.Returns (None, Some e), w1, tr1))
  /\ (forall db w1 tr1 e w2 tr2,
        connected db w1 tr1 ->
        run env (DoMigrations db dbcfg) w1 = (Go.Returns (Some e), w2, tr2) ->
        run env (Init cfg log) w
        = (Go.Returns (None, Some e), w2, (tr1 ++ tr2)%list))
  /\ (forall db w1 tr1 w2 tr2 e w3,
        connected db w1 tr1 ->
        migrated db w1 w2 tr2 ->
        config.DbConfig.PreparedDb dbcfg = true ->
        env (ImportHeaders db cfg log) w2 = (Some e, w3) ->
        run env (Init cfg log) w
        = (Go.Returns (None, Some e), w3,
           (tr1 ++ tr2 ++ [ImportHeaders db cfg log])%list))
  /\ (forall db w1 tr1 w2 tr2,
        connected db w1 tr1 ->
        migrated db w1 w2 tr2 ->
        (config.DbConfig.PreparedDb dbcfg = false ->
         run env (Init cfg log) w = (Go.Returns (db, None), w2, (tr1 ++ tr2)%list))
        /\ (forall w3,
              config.DbConfig.PreparedDb dbcfg = true ->
              env (ImportHeaders db cfg log) w2 = (None, w3) ->
              run env (Init cfg log) w
              = (Go.Returns (db, None), w3,
                 (tr1 ++ tr2 ++ [ImportHeaders db cfg log])%list)))
  /\ config.DbConfig.PreparedDb (config.AppConfig.DbConfig config.GetDefaultAppConfig)
     = false
  /\ config.DbConfig.PreparedDbFilePath
       (config.AppConfig.DbConfig config.GetDefaultAppConfig)
     = "./data/blockheaders.csv.gz"
  /\ calls_ImportHeaders (run env (Init config.GetDefaultAppConfig log) w) = false.
Proof.
  intros dbcfg connected migrated. subst connected migrated. cbv beta.
  assert (Hiff : forall cfg0,
    calls_ImportHeaders (run env (Init cfg0 log) w) = true
    <-> config.DbConfig.PreparedDb (config.AppConfig.DbConfig cfg0) = true
        /\ exists db w1 tr1 w2 tr2,
             run env (Connect (config.AppConfig.DbConfig cfg0)) w
             = (Go.Returns (db, None), w1, tr1)
             /\ run env (DoMigrations db (config.AppConfig.DbConfig cfg0)) w1
                = (Go.Returns None, w2, tr2)).
  { intros cfg0. rewrite run_Init.
    pose proof (Connect_no_ImportHeaders env (config.AppConfig.DbConfig cfg0) w) as Hc.
    destruct (run env (Connect (config.AppConfig.DbConfig cfg0)) w)
      as [[[[db [e|]]|] w1] tr1]; unfold calls_ImportHeaders in *; cbn [snd] in *.
    - rewrite Hc. split; [discriminate|].
      intros (_ & db' & w1' & tr1' & w2 & tr2 & Hx & _). discriminate Hx.
    - pose proof (DoMigrations_no_ImportHeaders env db
                    (config.AppConfig.DbConfig cfg0) w1) as Hm.
      destruct (run env (DoMigrations db (config.AppConfig.DbConfig cfg0)) w1)
        as [[[[e|]|] w2] tr2] eqn:Em; unfold calls_ImportHeaders in *;
        cbn [snd] in *.
      + rewrite existsb_app, Hc, Hm. split; [discriminate|].
        intros (_ & db' & w1' & tr1' & w2' & tr2' & Hx & Hy).
        injection Hx as <- <- <-. rewrite Em in Hy. discriminate Hy.
      + destruct (config.DbConfig.PreparedDb (config.AppConfig.DbConfig cfg0)).
        * assert (Ht : existsb is_ImportHeaders
                         (tr1 ++ tr2 ++ [ImportHeaders db cfg0 log]) = true)
            by (rewrite !existsb_app; cbn; now rewrite !orb_true_r).
          destruct (env (ImportHeaders db cfg0 log) w2) as [[e|] w3];
            cbn [snd]; rewrite Ht; split; try reflexivity;
            intros _; (split; [reflexivity|]);
            exists db, w1, tr1, w2, tr2; now split.
        * cbn [snd]. rewrite existsb_app, Hc, Hm.
          split; [discriminate | intros [Hx _]; discriminate Hx].
      + rewrite existsb_app, Hc, Hm. split; [discriminate|].
        intros (_ & db' & w1' & tr1' & w2' & tr2' & Hx & Hy).
        injection Hx as <- <- <-. rewrite Em in Hy. discriminate Hy.
    - rewrite Hc. split; [discriminate|].
      intros (_ & db' & w1' & tr1' & w2 & tr2 & Hx & _). discriminate Hx. }
  split; [apply Hiff|].
  split; [|split; [|split; [|split; [|split; [|split]]]]].
  - intros db e w1 tr1 Hc. rewrite run_Init. fold dbcfg. now rewrite Hc.
  - intros db w1 tr1 e w2 tr2 Hc Hm. rewrite run_Init. fold dbcfg.
    now rewrite Hc, Hm.
  - intros db w1 tr1 w2 tr2 e w3 Hc Hm Hp Hi. rewrite run_Init. fold dbcfg.
    now rewrite Hc, Hm, Hp, Hi.
  - intros db w1 tr1 w2 tr2 Hc Hm. split.
    + intros Hp. rewrite run_Init. fold dbcfg. now rewrite Hc, Hm, Hp.
    + intros w3 Hp Hi. rewrite run_Init. fold dbcfg. now rewrite Hc, Hm, Hp, Hi.
  - reflexivity.
  - reflexivity.
  - destruct (calls_ImportHeaders (run env (Init config.GetDefaultAppConfig log) w))
      eqn:E; [|reflexivity].
    apply Hiff in E. destruct E as [E _]. discriminate E.
Qed.

End DatabaseFacts.

(** C4 on a PostgreSQL configuration: no adapter, and [Connect] fails
    before any call is made. *)
Lemma NewDBAdapter_sqlite_only_witness :
  @database.NewDBAdapter nat nat reference.postgres_config
  = (None, Some "unsupported database type postgresql")
  /\ database.run (reference.sample_env None)
       (database.Connect reference.postgres_config) 0%nat
     = (Go.Returns (None, Some "unsupported database type postgresql"), 0%nat, []).
Proof.
  assert (Hne : config.DbConfig.Type_ reference.postgres_config <> config.DBSqlite)
    by (vm_compute; discriminate).
  destruct (@NewDBAdapter_sqlite_only nat nat nat reference.postgres_config)
    as (_ & _ & _ & Hnew & Hrun & _).
  split.
  - exact (Hnew Hne).
  - exact (proj1 (Hrun Hne (reference.sample_env None) 0%nat None)).
Defined.

(** C3 on the default configuration with [PreparedDb] switched on and an
    import that fails: [ImportHeaders] is called after the two adapter
    calls and [Init] returns the nil handle with the import's error. *)
Lemma Init_ImportHeaders_witness :
  let env := reference.sample_env (Some "gzip: invalid header") in
  let db := Some 7%nat in
  let dbcfg := config.AppConfig.DbConfig reference.prepared_config in
  database.calls_ImportHeaders
    (database.run env (database.Init reference.prepared_config 0%nat) 0%nat) = true
  /\ database.run env (database.Init reference.prepared_config 0%nat) 0%nat
     = (Go.Returns (None, Some "gzip: invalid header"), 3%nat,
        [database.SQLiteAdapter_Connect dbcfg;
         database.SQLiteAdapter_DoMigrations db dbcfg;
         database.ImportHeaders db reference.prepared_config 0%nat]).
Proof.
  intros env db dbcfg.
  destruct (Init_ImportHeaders env reference.prepared_config 0%nat 0%nat)
    as (Hiff & _ & _ & Himp & _).
  assert (Hc : database.run env (database.Connect dbcfg) 0%nat
               = (Go.Returns (db, None), 1%nat, [database.SQLiteAdapter_Connect dbcfg]))
    by reflexivity.
  assert (Hm : database.run env (database.DoMigrations db dbcfg) 1%nat
               = (Go.Returns None, 2%nat,
                  [database.SQLiteAdapter_DoMigrations db dbcfg]))
    by reflexivity.
  split.
  - apply Hiff. split; [reflexivity|].
    exists db, 1%nat, [database.SQLiteAdapter_Connect dbcfg], 2%nat,
      [database.SQLiteAdapter_DoMigrations db dbcfg].
    split; [exact Hc | exact Hm].
  - exact (Himp db 1%nat _ 2%nat _ "gzip: invalid header" 3%nat Hc Hm
             eq_refl eq_refl).
Defined.

(* ===================================================================== *)
(** * Further properties of the conversions *)
(* ===================================================================== *)

(** ** The work columns are read in base 10 *)

Section DecimalReading.

Import big.

Lemma of_uint_acc_horner (d : Decimal.uint) (acc : positive) :
  Z.pos (Pos.of_uint_acc d acc) = digits.horner (Z.pos acc) d.
Proof.
  revert acc. induction d; intros acc; cbn [Pos.of_uint_acc digits.horner];
    [reflexivity | rewrite IHd; f_equal; lia ..].
Qed.

Lemma of_uint_horner (d : Decimal.uint) : Z.of_uint d = digits.horner 0 d.
Proof.
  unfold Z.of_uint.
  induction d; cbn [Pos.of_uint digits.horner]; try reflexivity; try exact IHd;
    cbn [Z.of_N]; rewrite of_uint_acc_horner; reflexivity.
Qed.

Lemma uint_of_string_horner (s : string) :
  forall (d : Decimal.uint) (acc : Z),
    NilEmpty.uint_of_string s = Some d ->
    digits.value_from acc s = digits.horner acc d.
Proof.
  unfold digits.value_from.
  induction s as [|a s IH]; intros d acc Hd.
  - injection Hd as <-. reflexivity.
  - cbn [NilEmpty.uint_of_string] in Hd.
    destruct (NilEmpty.uint_of_string s) as [d'|] eqn:Es.
    + cbn [list_ascii_of_string fold_left].
      apply uint_of_char_spec in Hd.
      destruct Hd as [[-> ->]|[[-> ->]|[[-> ->]|[[-> ->]|[[-> ->]|[[-> ->]|
                     [[-> ->]|[[-> ->]|[[-> ->]|[-> ->]]]]]]]]]];
        cbn [digits.horner]; apply (IH d'); reflexivity.
    + destruct a as [[] [] [] [] [] [] [] []]; discriminate Hd.
Qed.

(** A non-empty text of digits parses to the number it denotes; a sign in
    front is honoured. *)
Lemma SetString_value (r : string) :
  r <> "" -> all_digits r = true ->
  SetString r = (Some (digits.value r), true)
  /\ SetString (String "+" r) = (Some (digits.value r), true)
  /\ SetString (String "-" r) = (Some (- digits.value r), true).
Proof.
  intros Hne Hd.
  apply uint_of_string_digits in Hd. destruct Hd as [d Hd].
  assert (Hv : Z.of_uint d = digits.value r).
  { rewrite of_uint_horner. symmetry. now apply uint_of_string_horner. }
  assert (Hu : NilZero.uint_of_string r = Some d).
  { unfold NilZero.uint_of_string. destruct r; [now elim Hne | exact Hd]. }
  assert (Hs : scanSign r = (false, r)).
  { destruct r as [|a r]; [reflexivity|].
    cbn [NilEmpty.uint_of_string] in Hd.
    destruct (NilEmpty.uint_of_string r); [|destruct a as [[] [] [] [] [] [] [] []]; discriminate Hd].
    apply uint_of_char_spec in Hd.
    destruct Hd as [[-> _]|[[-> _]|[[-> _]|[[-> _]|[[-> _]|[[-> _]|
                   [[-> _]|[[-> _]|[[-> _]|[-> _]]]]]]]]]]; reflexivity. }
  unfold SetString. rewrite Hs. cbn [scanSign]. rewrite Hu, Hv. now repeat split.
Qed.

End DecimalReading.

(** ** More on the conversion of one row *)

Section RowConversion.

Context `{imports.API}.

Import dto.

Implicit Types (dbh : DbBlockHeader.t) (bh : domains.BlockHeader.t).

Lemma work_or_zero_is_Some (column : string) : is_Some (work_or_zero column).
Proof.
  unfold work_or_zero, big.SetString. destruct (big.scanSign column) as [neg r].
  destruct (NilZero.uint_of_string r); eexists; reflexivity.
Qed.

Lemma Int_String_inj (x y : big.Int) :
  big.Int_String x = big.Int_String y -> x = y.
Proof.
  intros E. apply (f_equal big.SetString) in E.
  destruct x as [v|], y as [v'|]; rewrite ?SetString_Int_String in E;
    rewrite ?SetString_nil_text in E; congruence.
Qed.

Lemma ToBlockHeader_receiver_nonempty dbh :
  DbBlockHeader.CumulatedWork (fst (ToBlockHeader dbh)) <> "".
Proof.
  rewrite ToBlockHeader_receiver.
  destruct (String.eqb_spec (DbBlockHeader.CumulatedWork dbh) "") as [E|E];
    [discriminate | exact E].
Qed.

(** X1.  Every header that [ToBlockHeader] returns carries two non-nil work
    values, whatever the work columns of the row hold, and the height,
    version, timestamp, bits, nonce and state of the row. *)
Theorem ToBlockHeader_work_never_nil dbh bh :
  snd (ToBlockHeader dbh) = Go.Returns bh ->
  is_Some (domains.BlockHeader.Chainwork bh)
  /\ is_Some (domains.BlockHeader.CumulatedWork bh)
  /\ domains.BlockHeader.Height bh = DbBlockHeader.Height dbh
  /\ domains.BlockHeader.Version bh = DbBlockHeader.Version dbh
  /\ domains.BlockHeader.Timestamp bh = DbBlockHeader.Timestamp dbh
  /\ domains.BlockHeader.Bits bh = DbBlockHeader.Bits dbh
  /\ domains.BlockHeader.Nonce bh = DbBlockHeader.Nonce dbh
  /\ domains.BlockHeader.State bh = DbBlockHeader.State dbh.
Proof.
  intros Hr.
  destruct (ToBlockHeader_work_fields dbh bh Hr) as [-> ->].
  split; [apply work_or_zero_is_Some|]. split; [apply work_or_zero_is_Some|].
  assert (Hp : hashes_parse dbh) by (apply ToBlockHeader_returns_iff; eauto).
  destruct Hp as ([h Hh] & [m Hm] & [p Hp]).
  rewrite (ToBlockHeader_returns dbh h m p Hh Hm Hp) in Hr.
  injection Hr as <-. now cbn.
Qed.

(** X2.  The only thing [ToBlockHeader] writes to its receiver is ["0"] into
    an empty [CumulatedWork]: the column is never empty afterwards, a row
    with a non-empty column is left as it is, no other column changes, and
    a second call finds nothing to write and has the outcome of the first. *)
Theorem ToBlockHeader_receiver_idempotent dbh :
  let dbh' := fst (ToBlockHeader dbh) in
  DbBlockHeader.CumulatedWork dbh' <> ""
  /\ (DbBlockHeader.CumulatedWork dbh <> "" -> dbh' = dbh)
  /\ (DbBlockHeader.CumulatedWork dbh = "" ->
      DbBlockHeader.CumulatedWork dbh' = "0")
  /\ dbh' = DbBlockHeader.set_CumulatedWork dbh (DbBlockHeader.CumulatedWork dbh')
  /\ fst (ToBlockHeader dbh') = dbh'
  /\ snd (ToBlockHeader dbh') = snd (ToBlockHeader dbh).
Proof.
  intros dbh'. subst dbh'.
  destruct (ToBlockHeader_again dbh) as [Hs Hf].
  rewrite Hs, Hf. rewrite ToBlockHeader_receiver.
  destruct (String.eqb_spec (DbBlockHeader.CumulatedWork dbh) "") as [E|E].
  - cbn. repeat split; try discriminate; try reflexivity. now intros Hn.
  - repeat split; try assumption; try reflexivity.
    + intros E'. now elim E.
    + now destruct dbh.
Qed.

(** X3.  The work columns are read in base 10: when a column is a non-empty
    text of digits, possibly after a plus sign, the returned header holds
    the number the digits denote; after a minus sign it holds the negative
    of that number (the conversion does not refuse negative work). *)
Theorem ToBlockHeader_reads_base10 dbh bh :
  snd (ToBlockHeader dbh) = Go.Returns bh ->
  forall r : string,
    r <> "" -> big.all_digits r = true ->
    let reads (column : string) (field : big.Int) :=
      (column = r -> field = Some (digits.value r))
      /\ (column = String "+" r -> field = Some (digits.value r))
      /\ (column = String "-" r -> field = Some (- digits.value r)) in
    reads (DbBlockHeader.Chainwork dbh) (domains.BlockHeader.Chainwork bh)
    /\ reads (DbBlockHeader.CumulatedWork dbh)
         (domains.BlockHeader.CumulatedWork bh).
Proof.
  intros Hr r Hne Hd reads. subst reads. cbv beta.
  destruct (ToBlockHeader_work_fields dbh bh Hr) as [-> ->].
  destruct (SetString_value r Hne Hd) as (H0 & Hplus & Hminus).
  assert (Hr0 : String.eqb r "" = false)
    by (destruct r; [now elim Hne | reflexivity]).
  unfold work_or_zero.
  repeat split; intros ->; cbn [String.eqb]; rewrite ?Hr0;
    rewrite ?H0, ?Hplus, ?Hminus; reflexivity.
Qed.

(** X4.  The round trip from the row: when the three hash columns are the
    printed forms of the hashes they parse to, the work columns are the
    printed forms of integers and [HeaderState.String] gives the state back,
    [ToBlockHeader] returns a header that [ToDbBlockHeader] turns into the
    same row, and the receiver is left as it was. *)
Theorem ToDbBlockHeader_ToBlockHeader dbh (hash merkleTree prevBlock : imports.Hash)
    (chainwork cumulatedWork : Z) :
  fst (imports.NewHashFromStr (DbBlockHeader.Hash dbh)) = Some hash ->
  imports.Hash_String hash = DbBlockHeader.Hash dbh ->
  fst (imports.NewHashFromStr (DbBlockHeader.MerkleRoot dbh)) = Some merkleTree ->
  imports.Hash_String merkleTree = DbBlockHeader.MerkleRoot dbh ->
  fst (imports.NewHashFromStr (DbBlockHeader.PreviousBlock dbh)) = Some prevBlock ->
  imports.Hash_String prevBlock = DbBlockHeader.PreviousBlock dbh ->
  imports.HeaderState_String (DbBlockHeader.State dbh) = DbBlockHeader.State dbh ->
  DbBlockHeader.Chainwork dbh = big.Int_String (Some chainwork) ->
  DbBlockHeader.CumulatedWork dbh = big.Int_String (Some cumulatedWork) ->
  exists bh,
    snd (ToBlockHeader dbh) = Go.Returns bh
    /\ ToDbBlockHeader bh = dbh
    /\ fst (ToBlockHeader dbh) = dbh.
Proof.
  intros Hh Ehs Hm Ems Hp Eps Est Ew Ec.
  assert (En : String.eqb (DbBlockHeader.CumulatedWork dbh) "" = false)
    by (rewrite Ec; apply Int_String_nonempty).
  eexists. split; [apply (ToBlockHeader_returns dbh _ _ _ Hh Hm Hp)|]. split.
  - rewrite En. unfold ToDbBlockHeader, work_or_zero. cbn.
    rewrite Ehs, Ems, Eps, Est.
    rewrite Ew, Ec, !SetString_Int_String, <- Ew, <- Ec. now destruct dbh.
  - rewrite ToBlockHeader_receiver. now rewrite En.
Qed.

(** X5.  Two headers with the same row are the same header, as soon as the
    hashes and the states of the two are told apart by their printed forms;
    a nil work value is told apart from every number by its text. *)
Theorem ToDbBlockHeader_injective bh1 bh2 :
  (imports.Hash_String (domains.BlockHeader.Hash bh1)
   = imports.Hash_String (domains.BlockHeader.Hash bh2) ->
   domains.BlockHeader.Hash bh1 = domains.BlockHeader.Hash bh2) ->
  (imports.Hash_String (domains.BlockHeader.MerkleRoot bh1)
   = imports.Hash_String (domains.BlockHeader.MerkleRoot bh2) ->
   domains.BlockHeader.MerkleRoot bh1 = domains.BlockHeader.MerkleRoot bh2) ->
  (imports.Hash_String (domains.BlockHeader.PreviousBlock bh1)
   = imports.Hash_String (domains.BlockHeader.PreviousBlock bh2) ->
   domains.BlockHeader.PreviousBlock bh1 = domains.BlockHeader.PreviousBlock bh2) ->
  (imports.HeaderState_String (domains.BlockHeader.State bh1)
   = imports.HeaderState_String (domains.BlockHeader.State bh2) ->
   domains.BlockHeader.State bh1 = domains.BlockHeader.State bh2) ->
  ToDbBlockHeader bh1 = ToDbBlockHeader bh2 ->
  bh1 = bh2.
Proof.
  intros Hh Hm Hp Hs E. unfold ToDbBlockHeader in E.
  injection E as E1 E2 E3 E4 E5 E6 E7 E8 E9 E10 E11.
  destruct bh1, bh2. cbn in *.
  apply Hh in E2. apply Hm in E4. apply Hp in E11. apply Hs in E8.
  apply Int_String_inj in E9. apply Int_String_inj in E10.
  congruence.
Qed.

End RowConversion.

(** X1 on the row with an empty and an unparseable work column. *)
Lemma ToBlockHeader_work_never_nil_witness :
  exists bh,
    snd (@dto.ToBlockHeader reference.API reference.sample_row) = Go.Returns bh
    /\ is_Some (domains.BlockHeader.Chainwork bh)
    /\ is_Some (domains.BlockHeader.CumulatedWork bh).
Proof.
  eexists. split; [reflexivity|].
  destruct (@ToBlockHeader_work_never_nil reference.API reference.sample_row _ eq_refl)
    as (Hw & Hc & _).
  split; [exact Hw | exact Hc].
Defined.

(** X3 on a row with the work columns ["+0042"] and ["-15"]. *)
Lemma ToBlockHeader_reads_base10_witness :
  exists bh,
    snd (@dto.ToBlockHeader reference.API reference.signed_row) = Go.Returns bh
    /\ domains.BlockHeader.Chainwork bh = Some 42
    /\ domains.BlockHeader.CumulatedWork bh = Some (-15).
Proof.
  eexists. split; [reflexivity|]. split.
  - assert (Hne : "0042" <> "") by discriminate.
    destruct (@ToBlockHeader_reads_base10 reference.API reference.signed_row _
                eq_refl "0042" Hne eq_refl) as [(_ & Hplus & _) _].
    exact (Hplus eq_refl).
  - assert (Hne : "15" <> "") by discriminate.
    destruct (@ToBlockHeader_reads_base10 reference.API reference.signed_row _
                eq_refl "15" Hne eq_refl) as [_ (_ & _ & Hminus)].
    exact (Hminus eq_refl).
Defined.

(** X4 on the row of the sample header. *)
Lemma ToDbBlockHeader_ToBlockHeader_witness :
  exists bh,
    snd (@dto.ToBlockHeader reference.API (dto.ToDbBlockHeader reference.sample_header))
    = Go.Returns bh
    /\ dto.ToDbBlockHeader bh = dto.ToDbBlockHeader reference.sample_header.
Proof.
  destruct (@ToDbBlockHeader_ToBlockHeader reference.API
              (dto.ToDbBlockHeader reference.sample_header)
              reference.sample_hash (rev reference.sample_hash) (repeat 0%nat 32)
              4295032833 340282366920938463463374607431768211456
              eq_refl eq_refl eq_refl eq_refl eq_refl eq_refl eq_refl eq_refl eq_refl)
    as (bh & Hr & Hb & _).
  exists bh. split; [exact Hr | exact Hb].
Defined.

(** X5 on the sample header and the header read back from its row: the
    two have the same row, so they are the same header. *)
Lemma ToDbBlockHeader_injective_witness :
  reference.sample_header
  = match snd (@dto.ToBlockHeader reference.API
                 (dto.ToDbBlockHeader reference.sample_header)) with
    | Go.Returns bh => bh
    | Go.Panics => reference.other_header
    end.
Proof.
  apply (@ToDbBlockHeader_injective reference.API).
  - intros _. reflexivity.
  - intros _. reflexivity.
  - intros _. reflexivity.
  - intros _. reflexivity.
  - reflexivity.
Defined.

(** ** More on the conversion of slices *)

Section SliceEffects.

Context `{imports.API}.

Import dto.

Implicit Types (st : store) (p : ptr) (ps : list ptr)
  (bhs : list domains.BlockHeader.t).

(** One call through a pointer changes the record at that address only. *)
Lemma ToBlockHeader_at_other st p (b : nat) :
  p <> Some b -> fst (ToBlockHeader_at p st) !! b = st !! b.
Proof.
  intros Hne. unfold ToBlockHeader_at. destruct p as [a|]; [|reflexivity].
  destruct (st !! a) as [dbh|] eqn:Ea; [|reflexivity].
  destruct (ToBlockHeader dbh) as [dbh' r]. cbn [fst]. unfold store in *.
  apply lookup_insert_ne. congruence.
Qed.

Lemma ToBlockHeader_at_self st (a : nat) dbh :
  st !! a = Some dbh ->
  fst (ToBlockHeader_at (Some a) st) !! a = Some (fst (ToBlockHeader dbh)).
Proof.
  intros Ea. unfold ToBlockHeader_at. rewrite Ea.
  destruct (ToBlockHeader dbh) as [dbh' r]. cbn [fst]. unfold store in *.
  apply lookup_insert_eq.
Qed.

Lemma ToBlockHeader_at_is_Some st p (b : nat) :
  is_Some (fst (ToBlockHeader_at p st) !! b) <-> is_Some (st !! b).
Proof.
  destruct (decide (p = Some b)) as [->|Hne].
  - destruct (st !! b) as [dbh|] eqn:Eb.
    + rewrite (ToBlockHeader_at_self st b dbh Eb). split; eauto.
    + unfold ToBlockHeader_at. rewrite Eb. cbn [fst]. now rewrite Eb.
  - now rewrite ToBlockHeader_at_other.
Qed.

(** The loop, whatever its outcome: records outside the slice keep their
    value and no record appears or disappears. *)
Lemma ConvertToBlockHeader_loop_frame ps :
  forall acc st (b : nat),
    (Some b ∉ ps ->
     fst (ConvertToBlockHeader_loop ps acc st) !! b = st !! b)
    /\ (is_Some (fst (ConvertToBlockHeader_loop ps acc st) !! b)
        <-> is_Some (st !! b)).
Proof.
  induction ps as [|p ps IH]; intros acc st b; cbn [ConvertToBlockHeader_loop].
  - split; [reflexivity | tauto].
  - pose proof (ToBlockHeader_at_other st p b) as Ho.
    pose proof (ToBlockHeader_at_is_Some st p b) as Hs.
    destruct (ToBlockHeader_at p st) as [st1 [h|]]; cbn [fst] in *.
    + destruct (IH (Go.append acc h) st1 b) as [IH1 IH2]. split.
      * intros Hn. apply not_elem_of_cons in Hn. destruct Hn as [Hn1 Hn2].
        rewrite IH1 by exact Hn2. apply Ho. congruence.
      * now rewrite IH2.
    + split; [|exact Hs].
      intros Hn. apply not_elem_of_cons in Hn. destruct Hn as [Hn1 _].
      apply Ho. congruence.
Qed.

(** The loop when it returns: every record the slice refers to has been
    through [ToBlockHeader], once or several times to the same effect. *)
Lemma ConvertToBlockHeader_loop_normalizes st0 ps :
  forall acc st st' r,
    touched st0 st ->
    ConvertToBlockHeader_loop ps acc st = (st', Go.Returns r) ->
    forall b : nat,
      Some b ∈ ps ->
      exists dbh,
        st0 !! b = Some dbh /\ st' !! b = Some (fst (ToBlockHeader dbh)).
Proof.
  induction ps as [|p ps IH]; intros acc st st' r Ht Hl b Hb.
  - inversion Hb.
  - cbn [ConvertToBlockHeader_loop] in Hl.
    destruct (ToBlockHeader_at_spec st0 st p Ht) as [_ Ht1].
    pose proof (ToBlockHeader_at_self st b) as Hself.
    destruct (ToBlockHeader_at p st) as [st1 [h|]] eqn:Eat; cbn [fst] in *;
      [|discriminate Hl].
    destruct (decide (Some b ∈ ps)) as [Hin|Hout].
    + exact (IH _ _ _ _ Ht1 Hl b Hin).
    + apply elem_of_cons in Hb. destruct Hb as [<-|Hb]; [|now elim Hout].
      rewrite Eat in Hself. cbn [fst] in Hself.
      destruct (ConvertToBlockHeader_loop_frame ps (Go.append acc h) st1 b)
        as [Hframe _].
      rewrite Hl in Hframe. cbn [fst] in Hframe. rewrite (Hframe Hout).
      destruct (st !! b) as [dbh|] eqn:Eb.
      * rewrite (Hself dbh eq_refl).
        destruct (Ht b) as [E|(dbh0 & E0 & E)]; rewrite Eb in E.
        -- exists dbh. now split.
        -- exists dbh0. split; [exact E0|]. injection E as ->.
           f_equal. apply ToBlockHeader_again.
      * unfold ToBlockHeader_at in Eat. rewrite Eb in Eat. discriminate Eat.
Qed.

(** X6.  What [ConvertToBlockHeader] does to the rows: whatever the
    outcome, a row that no pointer of the slice refers to is left as it is
    and no row is added or removed; when the call returns, each row the
    slice refers to is the row [ToBlockHeader] leaves behind (an empty
    [CumulatedWork] has become ["0"]), however often it is referred to. *)
Theorem ConvertToBlockHeader_store (s : Go.slice ptr) st :
  let st' := fst (ConvertToBlockHeader s st) in
  (forall b : nat, Some b ∉ Go.elems s -> st' !! b = st !! b)
  /\ (forall b : nat, is_Some (st' !! b) <-> is_Some (st !! b))
  /\ (forall r, snd (ConvertToBlockHeader s st) = Go.Returns r ->
      forall b : nat,
        Some b ∈ Go.elems s ->
        exists dbh,
          st !! b = Some dbh
          /\ st' !! b = Some (fst (ToBlockHeader dbh))
          /\ DbBlockHeader.CumulatedWork (fst (ToBlockHeader dbh)) <> "").
Proof.
  intros st'. subst st'. destruct s as [|ps]; cbn [ConvertToBlockHeader Go.elems].
  - split; [reflexivity|]. split; [tauto|]. intros r _ b Hb. inversion Hb.
  - split; [|split].
    + intros b. apply ConvertToBlockHeader_loop_frame.
    + intros b. apply ConvertToBlockHeader_loop_frame.
    + intros r Hr b Hb.
      destruct (ConvertToBlockHeader_loop ps Go.nil_slice st) as [st1 o] eqn:El.
      cbn [fst snd] in *. subst o.
      destruct (ConvertToBlockHeader_loop_normalizes st ps _ _ _ _
                  (touched_refl st) El b Hb) as (dbh & Eb & Hn).
      exists dbh. split; [exact Eb|]. split; [exact Hn|].
      apply ToBlockHeader_receiver_nonempty.
Qed.

(** The accumulator only collects: the store and the converted headers of
    a loop do not depend on what has been collected before. *)
Lemma ConvertToBlockHeader_loop_acc ps :
  forall st,
  exists st' (o : Go.outcome (list domains.BlockHeader.t)),
    forall acc,
      ConvertToBlockHeader_loop ps acc st
      = (st', match o with
              | Go.Returns l => Go.Returns (fold_left Go.append l acc)
              | Go.Panics => Go.Panics
              end).
Proof.
  induction ps as [|p ps IH]; intros st.
  - exists st, (Go.Returns []). reflexivity.
  - destruct (ToBlockHeader_at p st) as [st1 [h|]] eqn:Eat.
    + destruct (IH st1) as (st' & o & Hl).
      exists st', (match o with
                   | Go.Returns l => Go.Returns (h :: l)
                   | Go.Panics => Go.Panics
                   end).
      intros acc. cbn [ConvertToBlockHeader_loop]. rewrite Eat, Hl.
      now destruct o.
    + exists st1, Go.Panics. intros acc. cbn [ConvertToBlockHeader_loop].
      now rewrite Eat.
Qed.

Lemma ConvertToBlockHeader_loop_app ps1 ps2 :
  forall acc st,
    ConvertToBlockHeader_loop (ps1 ++ ps2) acc st
    = match ConvertToBlockHeader_loop ps1 acc st with
      | (st1, Go.Returns acc1) => ConvertToBlockHeader_loop ps2 acc1 st1
      | (st1, Go.Panics) => (st1, Go.Panics)
      end.
Proof.
  induction ps1 as [|p ps1 IH]; intros acc st; cbn [app ConvertToBlockHeader_loop].
  - reflexivity.
  - destruct (ToBlockHeader_at p st) as [st1 [h|]]; [apply IH | reflexivity].
Qed.

Lemma ConvertToMerkleRootsConfirmations_loop_app
    (l1 l2 : list (option DbMerkleRootConfirmation.t)) (m : Z) :
  forall acc,
    ConvertToMerkleRootsConfirmations_loop (l1 ++ l2) m acc
    = match ConvertToMerkleRootsConfirmations_loop l1 m acc with
      | Go.Returns acc1 => ConvertToMerkleRootsConfirmations_loop l2 m acc1
      | Go.Panics => Go.Panics
      end.
Proof.
  induction l1 as [|[d|] l1 IH]; intros acc; cbn; [reflexivity | apply IH | reflexivity].
Qed.

Lemma ConvertToMerkleRootsConfirmations_loop_acc
    (l : list (option DbMerkleRootConfirmation.t)) (m : Z) :
  exists o : Go.outcome (list domains.MerkleRootConfirmation.t),
    forall acc,
      ConvertToMerkleRootsConfirmations_loop l m acc
      = match o with
        | Go.Returns cs => Go.Returns (fold_left Go.append cs acc)
        | Go.Panics => Go.Panics
        end.
Proof.
  induction l as [|[d|] l IH].
  - exists (Go.Returns []). reflexivity.
  - destruct IH as (o & Hl).
    exists (match o with
            | Go.Returns cs => Go.Returns (ToMerkleRootConfirmation d m :: cs)
            | Go.Panics => Go.Panics
            end).
    intros acc. cbn. rewrite Hl. now destruct o.
  - exists Go.Panics. reflexivity.
Qed.

(** X7.  Converting in two batches: when the first part of a slice converts
    to [r1], leaving the store [st1], and the second part converts from
    [st1] to [r2], the whole slice converts to the elements of [r1] followed
    by those of [r2] and leaves the same store; when the first part panics,
    so does the whole, in the same store.  The same holds for
    [ConvertToMerkleRootsConfirmations]. *)
Theorem Convert_in_batches :
  (forall ps1 ps2 st st1 r1 st2 r2,
      ConvertToBlockHeader (Go.mk_slice ps1) st = (st1, Go.Returns r1) ->
      ConvertToBlockHeader (Go.mk_slice ps2) st1 = (st2, Go.Returns r2) ->
      exists r,
        ConvertToBlockHeader (Go.mk_slice (ps1 ++ ps2)) st = (st2, Go.Returns r)
        /\ Go.elems r = (Go.elems r1 ++ Go.elems r2)%list)
  /\ (forall ps1 ps2 st st1,
        ConvertToBlockHeader (Go.mk_slice ps1) st = (st1, Go.Panics) ->
        ConvertToBlockHeader (Go.mk_slice (ps1 ++ ps2)) st = (st1, Go.Panics))
  /\ (forall l1 l2 m r1 r2,
        ConvertToMerkleRootsConfirmations (Go.mk_slice l1) m = Go.Returns r1 ->
        ConvertToMerkleRootsConfirmations (Go.mk_slice l2) m = Go.Returns r2 ->
        ConvertToMerkleRootsConfirmations (Go.mk_slice (l1 ++ l2)) m
        = Go.Returns (Go.mk_slice (Go.elems r1 ++ Go.elems r2)))
  /\ (forall l1 l2 m,
        ConvertToMerkleRootsConfirmations (Go.mk_slice l1) m = Go.Panics ->
        ConvertToMerkleRootsConfirmations (Go.mk_slice (l1 ++ l2)) m = Go.Panics).
Proof.
  split; [|split; [|split]].
  - intros ps1 ps2 st st1 r1 st2 r2 H1 H2. cbn [ConvertToBlockHeader] in *.
    rewrite ConvertToBlockHeader_loop_app, H1.
    destruct (ConvertToBlockHeader_loop_acc ps2 st1) as (st' & o & Hl).
    rewrite Hl in H2. rewrite Hl. destruct o as [l|]; [|discriminate H2].
    injection H2 as -> <-. eexists. split; [reflexivity|].
    now rewrite !fold_left_append_elems.
  - intros ps1 ps2 st st1 H1. cbn [ConvertToBlockHeader] in *.
    now rewrite ConvertToBlockHeader_loop_app, H1.
  - intros l1 l2 m r1 r2 H1 H2.
    unfold ConvertToMerkleRootsConfirmations, Go.make0 in *. cbn [Go.elems] in *.
    rewrite ConvertToMerkleRootsConfirmations_loop_app, H1.
    destruct (ConvertToMerkleRootsConfirmations_loop_acc l2 m) as (o & Hl).
    rewrite Hl in H2. rewrite Hl. destruct o as [cs|]; [|discriminate H2].
    injection H2 as <-. rewrite fold_left_append_elems. cbn [Go.elems app].
    assert (Hn : Go.is_nil r1 = false)
      by (eapply ConvertToMerkleRootsConfirmations_loop_nonnil; exact H1).
    destruct r1 as [|l]; [discriminate Hn|]. cbn [Go.elems].
    clear. revert l. induction cs as [|c cs IH]; intros l; cbn [fold_left].
    + now rewrite app_nil_r.
    + unfold Go.append at 2. cbn [Go.elems]. rewrite IH. now rewrite <- app_assoc.
  - intros l1 l2 m H1.
    unfold ConvertToMerkleRootsConfirmations, Go.make0 in *. cbn [Go.elems] in *.
    now rewrite ConvertToMerkleRootsConfirmations_loop_app, H1.
Qed.

End SliceEffects.

(** X6 on a store with two rows and a slice that refers twice to the first:
    the first row gets ["0"] for its empty [CumulatedWork], the second row
    is left alone. *)
Lemma ConvertToBlockHeader_store_witness :
  let st : @dto.store reference.API :=
    <[ 1%nat := reference.signed_row ]> {[ 0%nat := reference.sample_row ]} in
  let st' := fst (dto.ConvertToBlockHeader (Go.mk_slice [Some 0%nat; Some 0%nat]) st) in
  st' !! 1%nat = Some reference.signed_row
  /\ exists dbh, st' !! 0%nat = Some dbh /\ dto.DbBlockHeader.CumulatedWork dbh <> "".
Proof.
  intros st st'.
  destruct (@ConvertToBlockHeader_store reference.API
              (Go.mk_slice [Some 0%nat; Some 0%nat]) st) as (Hout & _ & Hin).
  split.
  - transitivity (st !! 1%nat); [|reflexivity].
    apply Hout. cbn [Go.elems]. intros Hx.
    repeat (apply elem_of_cons in Hx; destruct Hx as [Hx|Hx]; [discriminate Hx|]).
    inversion Hx.
  - destruct (Hin _ eq_refl 0%nat) as (dbh & _ & Hst & Hne).
    + cbn [Go.elems]. apply elem_of_cons. now left.
    + eexists. split; [exact Hst | exact Hne].
Defined.

(** X7 on the reference implementation: one pointer, then the same pointer
    again, against the slice of the two. *)
Lemma Convert_in_batches_witness :
  let st : @dto.store reference.API := {[ 0%nat := reference.sample_row ]} in
  exists r st2,
    dto.ConvertToBlockHeader (Go.mk_slice ([Some 0%nat] ++ [Some 0%nat])) st
    = (st2, Go.Returns r)
    /\ Go.len r = 2%nat.
Proof.
  intros st.
  destruct (@Convert_in_batches reference.API) as (Hb & _).
  edestruct (Hb [Some 0%nat] [Some 0%nat] st) as (r & Hr & He).
  - reflexivity.
  - reflexivity.
  - exists r. eexists. split; [exact Hr|]. unfold Go.len. now rewrite He.
Defined.

(** ** More on Merkle-root confirmations *)

Section ConfirmationFacts.

Import dto.

Implicit Types (d : DbMerkleRootConfirmation.t) (m : Z).

(** X8.  Whatever the heights and the excess, wrap-around included: the
    confirmation is [Confirmed] exactly when the stored hash is present;
    it is [UnableToVerify] only for a height above the tip (and no stored
    hash), so a height at or below the tip without a stored hash is always
    [Invalid]; and the result carries the Merkle root, the height and the
    hash string of the record. *)
Theorem ToMerkleRootConfirmation_always d m :
  let c := ToMerkleRootConfirmation d m in
  let valid := sql.NullString.Valid (DbMerkleRootConfirmation.Hash d) in
  (domains.MerkleRootConfirmation.Confirmation c = domains.Confirmed
   <-> valid = true)
  /\ (domains.MerkleRootConfirmation.Confirmation c = domains.UnableToVerify ->
      valid = false
      /\ DbMerkleRootConfirmation.BlockHeight d > DbMerkleRootConfirmation.TipHeight d)
  /\ (valid = false ->
      DbMerkleRootConfirmation.BlockHeight d <= DbMerkleRootConfirmation.TipHeight d ->
      domains.MerkleRootConfirmation.Confirmation c = domains.Invalid)
  /\ domains.MerkleRootConfirmation.MerkleRoot c = DbMerkleRootConfirmation.MerkleRoot d
  /\ domains.MerkleRootConfirmation.BlockHeight c = DbMerkleRootConfirmation.BlockHeight d
  /\ domains.MerkleRootConfirmation.Hash c
     = sql.NullString.String_ (DbMerkleRootConfirmation.Hash d).
Proof.
  intros c valid. subst c valid. unfold ToMerkleRootConfirmation. cbn.
  destruct (sql.NullString.Valid (DbMerkleRootConfirmation.Hash d)).
  - repeat split; try discriminate; try reflexivity.
  - destruct (Z.gtb_spec (DbMerkleRootConfirmation.BlockHeight d)
                (DbMerkleRootConfirmation.TipHeight d)) as [Hgt|Hle]; cbn.
    + destruct (_ <? _)%Z; repeat split; try discriminate; try reflexivity; lia.
    + repeat split; try discriminate; reflexivity.
Qed.

(** X9.  Inside the range without wrap-around a larger excess is more
    lenient: what is [UnableToVerify] stays so, what is [Invalid] under the
    larger excess is [Invalid] under the smaller one, and [Confirmed] does
    not depend on the excess. *)
Theorem ToMerkleRootConfirmation_monotone d m m' :
  DbMerkleRootConfirmation.BlockHeight d - DbMerkleRootConfirmation.TipHeight d
    < 2 ^ 31 ->
  - 2 ^ 31 - 1 <= m ->
  m <= m' ->
  m' <= 2 ^ 31 - 2 ->
  let c := domains.MerkleRootConfirmation.Confirmation (ToMerkleRootConfirmation d m) in
  let c' := domains.MerkleRootConfirmation.Confirmation (ToMerkleRootConfirmation d m') in
  (c = domains.UnableToVerify -> c' = domains.UnableToVerify)
  /\ (c' = domains.Invalid -> c = domains.Invalid)
  /\ (c = domains.Confirmed <-> c' = domains.Confirmed).
Proof.
  intros Hd Hlo Hle Hhi c c'. subst c c'.
  rewrite !ToMerkleRootConfirmation_refines by lia.
  unfold Spec.confirmation.
  destruct (sql.NullString.Valid (DbMerkleRootConfirmation.Hash d)).
  - repeat split; intros; try discriminate; reflexivity.
  - destruct (Z.gtb_spec (DbMerkleRootConfirmation.BlockHeight d)
                (DbMerkleRootConfirmation.TipHeight d)); cbn;
      destruct (Z.leb_spec
                  (DbMerkleRootConfirmation.BlockHeight d
                   - DbMerkleRootConfirmation.TipHeight d) m);
      destruct (Z.leb_spec
                  (DbMerkleRootConfirmation.BlockHeight d
                   - DbMerkleRootConfirmation.TipHeight d) m');
      repeat split; intros; try discriminate; try reflexivity; lia.
Qed.

(** X10.  With the default [MaxBlockHeightExcess] and heights as a chain
    has them (int32 values, tip not negative), a record without stored hash
    is [UnableToVerify] exactly for the six heights after the tip and
    [Invalid] for every other height. *)
Theorem ToMerkleRootConfirmation_default_excess d :
  GoInt.is_int32 (DbMerkleRootConfirmation.BlockHeight d) ->
  GoInt.is_int32 (DbMerkleRootConfirmation.TipHeight d) ->
  0 <= DbMerkleRootConfirmation.TipHeight d ->
  sql.NullString.Valid (DbMerkleRootConfirmation.Hash d) = false ->
  let excess :=
    config.MerkleRootConfig.MaxBlockHeightExcess
      (config.AppConfig.MerkleRootConfig config.GetDefaultAppConfig) in
  let c := domains.MerkleRootConfirmation.Confirmation
             (ToMerkleRootConfirmation d excess) in
  let bh := DbMerkleRootConfirmation.BlockHeight d in
  let tip := DbMerkleRootConfirmation.TipHeight d in
  (c = domains.UnableToVerify <-> tip + 1 <= bh <= tip + 6)
  /\ (c = domains.Invalid <-> bh <= tip \/ tip + 7 <= bh).
Proof.
  intros Hb Ht Ht0 Hv. cbv zeta.
  unfold GoInt.is_int32, GoInt.in_range in Hb, Ht.
  change (32 - 1) with 31 in Hb, Ht.
  change (config.MerkleRootConfig.MaxBlockHeightExcess
            (config.AppConfig.MerkleRootConfig config.GetDefaultAppConfig)) with 6.
  rewrite ToMerkleRootConfirmation_refines by lia.
  unfold Spec.confirmation. rewrite Hv.
  destruct (Z.gtb_spec (DbMerkleRootConfirmation.BlockHeight d)
              (DbMerkleRootConfirmation.TipHeight d)); cbn;
    destruct (Z.leb_spec
                (DbMerkleRootConfirmation.BlockHeight d
                 - DbMerkleRootConfirmation.TipHeight d) 6);
    repeat split; intros; try discriminate; try reflexivity; lia.
Qed.

End ConfirmationFacts.

(** X9 with tip 800000 and height 800010: [Invalid] under the excess 6,
    hence under the excess 3. *)
Lemma ToMerkleRootConfirmation_monotone_witness :
  domains.MerkleRootConfirmation.Confirmation
    (dto.ToMerkleRootConfirmation
       (dto.DbMerkleRootConfirmation.mk "" 800010 (sql.NullString.mk "" false) 800000) 3)
  = domains.Invalid.
Proof.
  assert (H1 : 800010 - 800000 < 2 ^ 31) by (cbn; lia).
  assert (H2 : - 2 ^ 31 - 1 <= 3) by (cbn; lia).
  assert (H3 : 3 <= 6) by lia.
  assert (H4 : 6 <= 2 ^ 31 - 2) by (cbn; lia).
  destruct (ToMerkleRootConfirmation_monotone
              (dto.DbMerkleRootConfirmation.mk "" 800010 (sql.NullString.mk "" false) 800000)
              3 6 H1 H2 H3 H4) as (_ & Hinv & _).
  apply Hinv. reflexivity.
Defined.

(** X10 at tip 800000: height 800006 cannot be verified yet, height 800007
    is invalid. *)
Lemma ToMerkleRootConfirmation_default_excess_witness :
  domains.MerkleRootConfirmation.Confirmation
    (dto.ToMerkleRootConfirmation
       (dto.DbMerkleRootConfirmation.mk "" 800006 (sql.NullString.mk "" false) 800000) 6)
  = domains.UnableToVerify
  /\ domains.MerkleRootConfirmation.Confirmation
       (dto.ToMerkleRootConfirmation
          (dto.DbMerkleRootConfirmation.mk "" 800007 (sql.NullString.mk "" false) 800000) 6)
     = domains.Invalid.
Proof.
  assert (Hr : forall x, 0 <= x <= 900000 -> GoInt.is_int32 x)
    by (intros x Hx; unfold GoInt.is_int32, GoInt.in_range; cbn; lia).
  assert (H6 : GoInt.is_int32 800006) by (apply Hr; lia).
  assert (H7 : GoInt.is_int32 800007) by (apply Hr; lia).
  assert (H0 : GoInt.is_int32 800000) by (apply Hr; lia).
  assert (Hn : 0 <= 800000) by lia.
  split.
  - destruct (ToMerkleRootConfirmation_default_excess
                (dto.DbMerkleRootConfirmation.mk "" 800006 (sql.NullString.mk "" false) 800000)
                H6 H0 Hn eq_refl) as [Hu _].
    apply Hu. cbn. lia.
  - destruct (ToMerkleRootConfirmation_default_excess
                (dto.DbMerkleRootConfirmation.mk "" 800007 (sql.NullString.mk "" false) 800000)
                H7 H0 Hn eq_refl) as [_ Hi].
    apply Hi. cbn. lia.
Defined.

(** ** More on the database bootstrap *)

Section BootstrapFacts.

Context {DB Logger W : Type}.

Import database.

Implicit Types (env : Env DB Logger W) (w : W).


(** X12.  The outside calls of [Init], in every environment: they are an
    initial part of the sequence [Connect], [DoMigrations], [ImportHeaders]
    (so each is made once at most, in this order, and nothing else is
    called), all on [cfg.DbConfig] resp. [cfg], and the handle passed to
    [DoMigrations] and to [ImportHeaders] is the one [Connect] returned. *)
Theorem Init_call_order env (cfg : config.AppConfig.t) (log : Logger) w :
  let dbcfg := config.AppConfig.DbConfig cfg in
  let db := fst (fst (env (SQLiteAdapter_Connect dbcfg) w)) in
  snd (run env (Init cfg log) w)
    `prefix_of` [ SQLiteAdapter_Connect dbcfg;
                  SQLiteAdapter_DoMigrations db dbcfg;
                  ImportHeaders db cfg log ].
Proof.
  intros dbcfg db. subst db. rewrite run_Init, run_Connect. fold dbcfg.
  destruct (String.eqb (config.DbConfig.Type_ dbcfg) config.DBSqlite) eqn:Et;
    [|eexists; reflexivity].
  destruct (env (SQLiteAdapter_Connect dbcfg) w) as [[db [e|]] w1]; cbn [fst snd];
    [eexists; reflexivity|].
  rewrite run_DoMigrations, Et.
  destruct (env (SQLiteAdapter_DoMigrations db dbcfg) w1) as [[e|] w2];
    [eexists; reflexivity|].
  destruct (config.DbConfig.PreparedDb dbcfg); [|eexists; reflexivity].
  destruct (env (ImportHeaders db cfg log) w2) as [[e|] w3];
    exists []; reflexivity.
Qed.

(** X13.  What [Init] returns: with an error the handle is nil; without
    one, the database type is sqlite, the handle is the one the adapter's
    [Connect] gave, the adapter reported no error, and [Connect] and
    [DoMigrations] have both been called. *)
Theorem Init_result env (cfg : config.AppConfig.t) (log : Logger) w
    (db : option DB) (err : Go.error) w' (tr : list (Call DB Logger)) :
  run env (Init cfg log) w = (Go.Returns (db, err), w', tr) ->
  let dbcfg := config.AppConfig.DbConfig cfg in
  (err <> None -> db = None)
  /\ (err = None ->
      config.DbConfig.Type_ dbcfg = config.DBSqlite
      /\ fst (env (SQLiteAdapter_Connect dbcfg) w) = (db, None)
      /\ (2 <= length tr)%nat
      /\ tr !! 0%nat = Some (SQLiteAdapter_Connect dbcfg)
      /\ tr !! 1%nat = Some (SQLiteAdapter_DoMigrations db dbcfg)).
Proof.
  intros Hr dbcfg. rewrite run_Init, run_Connect in Hr. fold dbcfg in Hr.
  destruct (String.eqb_spec (config.DbConfig.Type_ dbcfg) config.DBSqlite)
    as [Et|Et].
  - destruct (env (SQLiteAdapter_Connect dbcfg) w) as [[db1 [e|]] w1];
      cbn [fst snd] in *.
    + injection Hr as <- <- <- <-. split; [reflexivity | discriminate].
    + rewrite run_DoMigrations in Hr. fold dbcfg in Hr.
      rewrite (proj2 (String.eqb_eq _ _) Et) in Hr.
      destruct (env (SQLiteAdapter_DoMigrations db1 dbcfg) w1) as [[e|] w2].
      * injection Hr as <- <- <- <-. split; [reflexivity | discriminate].
      * destruct (config.DbConfig.PreparedDb dbcfg).
        -- destruct (env (ImportHeaders db1 cfg log) w2) as [[e|] w3];
             injection Hr as <- <- <- <-;
             (split; [try reflexivity; intros Hx; now elim Hx|]);
             intros Hx; try discriminate Hx;
             repeat split; try exact Et; try reflexivity; cbn; lia.
        -- injection Hr as <- <- <- <-.
           split; [intros Hx; now elim Hx|].
           intros _. repeat split; try exact Et; try reflexivity; cbn; lia.
  - injection Hr as <- <- <- <-. split; [reflexivity | discriminate].
Qed.

(** X14.  With a database type other than sqlite, [Init] fails before
    anything is touched: it returns the nil handle with the
    "unsupported database type" error, makes no outside call and leaves the
    world as it found it, whatever [PreparedDb] says. *)
Theorem Init_unsupported_type env (cfg : config.AppConfig.t) (log : Logger) w :
  config.DbConfig.Type_ (config.AppConfig.DbConfig cfg) <> config.DBSqlite ->
  run env (Init cfg log) w
  = (Go.Returns
       (None,
        Some ("unsupported database type "
              ++ config.DbConfig.Type_ (config.AppConfig.DbConfig cfg))),
     w, []).
Proof.
  intros Et. rewrite run_Init, run_Connect.
  destruct (String.eqb_spec
              (config.DbConfig.Type_ (config.AppConfig.DbConfig cfg))
              config.DBSqlite); [now elim Et | reflexivity].
Qed.

End BootstrapFacts.

(** X13 on the prepared configuration with an import that succeeds. *)
Lemma Init_result_witness :
  let env := reference.sample_env None in
  let dbcfg := config.AppConfig.DbConfig reference.prepared_config in
  database.run env (database.Init reference.prepared_config 0%nat) 0%nat
  = (Go.Returns (Some 7%nat, None), 3%nat,
     [database.SQLiteAdapter_Connect dbcfg;
      database.SQLiteAdapter_DoMigrations (Some 7%nat) dbcfg;
      database.ImportHeaders (Some 7%nat) reference.prepared_config 0%nat])
  /\ config.DbConfig.Type_ dbcfg = config.DBSqlite
  /\ fst (env (database.SQLiteAdapter_Connect dbcfg) 0%nat) = (Some 7%nat, None).
Proof.
  intros env dbcfg.
  assert (Hr : database.run env (database.Init reference.prepared_config 0%nat) 0%nat
               = (Go.Returns (Some 7%nat, None), 3%nat,
                  [database.SQLiteAdapter_Connect dbcfg;
                   database.SQLiteAdapter_DoMigrations (Some 7%nat) dbcfg;
                   database.ImportHeaders (Some 7%nat) reference.prepared_config 0%nat]))
    by reflexivity.
  split; [exact Hr|].
  destruct (Init_result env reference.prepared_config 0%nat 0%nat _ _ _ _ Hr)
    as [_ Hok].
  destruct (Hok eq_refl) as (Ht & Hc & _).
  split; [exact Ht | exact Hc].
Defined.

(** X14 on the PostgreSQL configuration with the import switched on. *)
Lemma Init_unsupported_type_witness :
  database.run (reference.sample_env None)
    (database.Init reference.postgres_app_config 0%nat) 0%nat
  = (Go.Returns (None, Some "unsupported database type postgresql"), 0%nat, []).
Proof.
  assert (Hne : config.DbConfig.Type_
                  (config.AppConfig.DbConfig reference.postgres_app_config)
                <> config.DBSqlite) by (vm_compute; discriminate).
  exact (Init_unsupported_type (reference.sample_env None)
           reference.postgres_app_config 0%nat 0%nat Hne).
Defined.

(** ** Confirmations over the whole int32 range *)

Section ConfirmationOverflow.

Import dto.

Lemma wrap32_high (x : Z) : 2 ^ 31 <= x < 2 ^ 32 -> GoInt.wrap 32 x = x - 2 ^ 32.
Proof.
  intros Hx. unfold GoInt.wrap. change (32 - 1) with 31.
  replace (x + 2 ^ 31) with (x + 2 ^ 31 - 2 ^ 32 + 1 * 2 ^ 32) by lia.
  rewrite Z_mod_plus_full. rewrite Z.mod_small; lia.
Qed.

(** X15.  The confirmation over all int32 heights, for an excess between 0
    and 2^31 - 2 and a record without stored hash: it is [UnableToVerify]
    exactly when the height is above the tip and the distance is at most
    the excess or at least 2^31.  The second case is the overflow of the
    int32 subtraction; it needs a negative tip. *)
Theorem ToMerkleRootConfirmation_int32 (d : DbMerkleRootConfirmation.t) (m : Z) :
  GoInt.is_int32 (DbMerkleRootConfirmation.BlockHeight d) ->
  GoInt.is_int32 (DbMerkleRootConfirmation.TipHeight d) ->
  0 <= m <= 2 ^ 31 - 2 ->
  sql.NullString.Valid (DbMerkleRootConfirmation.Hash d) = false ->
  let bh := DbMerkleRootConfirmation.BlockHeight d in
  let tip := DbMerkleRootConfirmation.TipHeight d in
  let c := domains.MerkleRootConfirmation.Confirmation
             (ToMerkleRootConfirmation d m) in
  (c = domains.UnableToVerify
   <-> bh > tip /\ (bh - tip <= m \/ 2 ^ 31 <= bh - tip))
  /\ (2 ^ 31 <= bh - tip -> tip < 0)
  /\ (c <> domains.UnableToVerify -> c = domains.Invalid).
Proof.
  intros Hb Ht Hm Hv. cbv zeta.
  unfold GoInt.is_int32, GoInt.in_range in Hb, Ht. change (32 - 1) with 31 in Hb, Ht.
  unfold ToMerkleRootConfirmation. cbn. rewrite Hv.
  rewrite to_int32_int_add_exact by lia.
  destruct (Z.gtb_spec (DbMerkleRootConfirmation.BlockHeight d)
              (DbMerkleRootConfirmation.TipHeight d)) as [Hgt|Hle]; cbn.
  - destruct (Z_lt_le_dec
                (DbMerkleRootConfirmation.BlockHeight d
                 - DbMerkleRootConfirmation.TipHeight d) (2 ^ 31)) as [Hs|Hl].
    + rewrite int32_sub_exact
        by (unfold GoInt.is_int32, GoInt.in_range; change (32 - 1) with 31; lia).
      destruct (Z.ltb_spec
                  (DbMerkleRootConfirmation.BlockHeight d
                   - DbMerkleRootConfirmation.TipHeight d) (m + 1));
        repeat split; intros; try discriminate; try reflexivity; try lia;
        try congruence.
    + unfold GoInt.int32_sub. rewrite wrap32_high by lia.
      destruct (Z.ltb_spec
                  (DbMerkleRootConfirmation.BlockHeight d
                   - DbMerkleRootConfirmation.TipHeight d - 2 ^ 32) (m + 1));
        repeat split; intros; try discriminate; try reflexivity; try lia;
        try congruence.
  - repeat split; intros; try discriminate; try reflexivity; lia.
Qed.

End ConfirmationOverflow.

(** X15 at the two ends: tip 800000 and height 800003 under the excess 6,
    and the overflow with tip -1 and height 2147483647. *)
Lemma ToMerkleRootConfirmation_int32_witness :
  domains.MerkleRootConfirmation.Confirmation
    (dto.ToMerkleRootConfirmation
       (dto.DbMerkleRootConfirmation.mk "" 800003 (sql.NullString.mk "" false) 800000) 6)
  = domains.UnableToVerify
  /\ domains.MerkleRootConfirmation.Confirmation
       (dto.ToMerkleRootConfirmation
          (dto.DbMerkleRootConfirmation.mk "" 2147483647 (sql.NullString.mk "" false) (-1)) 6)
     = domains.UnableToVerify.
Proof.
  assert (Hr : forall x, -1 <= x <= 2147483647 -> GoInt.is_int32 x)
    by (intros x Hx; unfold GoInt.is_int32, GoInt.in_range; cbn; lia).
  assert (Hm : 0 <= 6 <= 2 ^ 31 - 2) by (cbn; lia).
  split.
  - assert (Ha : GoInt.is_int32 800003) by (apply Hr; lia).
    assert (Hb : GoInt.is_int32 800000) by (apply Hr; lia).
    destruct (ToMerkleRootConfirmation_int32
                (dto.DbMerkleRootConfirmation.mk "" 800003 (sql.NullString.mk "" false) 800000)
                6 Ha Hb Hm eq_refl) as [Hu _].
    apply Hu. cbn. lia.
  - assert (Ha : GoInt.is_int32 2147483647) by (apply Hr; lia).
    assert (Hb : GoInt.is_int32 (-1)) by (apply Hr; lia).
    destruct (ToMerkleRootConfirmation_int32
                (dto.DbMerkleRootConfirmation.mk "" 2147483647 (sql.NullString.mk "" false) (-1))
                6 Ha Hb Hm eq_refl) as [Hu _].
    apply Hu. cbn. lia.
Defined.
